(** * clima_alerta: hybrid risk decision engine and adaptive retraining

    A shallow embedding of [analizador.py], [predictor.py],
    [modelo_adaptativo.py] and of the parts of [db_manager.py] and
    [notifier.py] they call, followed by the properties of the
    specification that concern them.

    Conventions.
    - A Python object that the code handles dynamically (a reading field, a
      threshold, a column of a row) is a [value].  A [float] is represented by
      the decimal rational it denotes; only comparisons and formatting are
      applied to floats in the code modelled here.
    - A Python dict with string keys is a [gmap string value].
    - A method is a computation in the monad [M]: it transforms the world
      (database, model file, log, calls made on the notifier and on the
      learning library) and either returns or raises.  As in Python, what was
      done before an exception is raised stays done.
    - Whether the database or the disk fails at a given operation is decided
      by the environment; the world carries that decision as a script, one
      entry per operation, [Some msg] meaning that the operation fails with
      an error whose text is [msg]. *)

From stdpp Require Import gmap strings list pretty.
From Stdlib Require Import QArith.

Local Open Scope Z_scope.

(** ** Python values *)

Record Fecha := { anio : Z; mes : Z; dia : Z }.

Inductive value :=
| VNone
| VInt (z : Z)
| VFloat (q : Q)
| VStr (s : string)
| VFecha (f : Fecha).

Definition nl : string := String (Ascii.ascii_of_nat 10) "".

Definition type_name (v : value) : string :=
  match v with
  | VNone => "NoneType"
  | VInt _ => "int"
  | VFloat _ => "float"
  | VStr _ => "str"
  | VFecha _ => "datetime.date"
  end.

Definition is_num (v : value) : bool :=
  match v with
  | VInt _ | VFloat _ => true
  | _ => false
  end.

Definition to_Q (v : value) : Q :=
  match v with
  | VInt z => inject_Z z
  | VFloat q => q
  | _ => 0%Q
  end.

(** *** Formatting *)

Fixpoint ceros (n : nat) : string :=
  match n with
  | O => ""
  | S k => "0" +:+ ceros k
  end.

(** [s] padded with zeros on the left up to [ancho] characters. *)
Definition rellena (ancho : nat) (s : string) : string :=
  ceros (ancho - String.length s) +:+ s.

(** The least [k >= k0] (within [intentos] steps) such that [n / d] has at
    most [k] decimals. *)
Fixpoint escala_min (intentos k0 : nat) (n d : Z) : nat :=
  match intentos with
  | O => k0
  | S i => if (n * 10 ^ Z.of_nat k0) mod d =? 0 then k0
           else escala_min i (S k0) n d
  end.

(** [str(x)] for a float [x]: the shortest decimal denoting it, with at least
    one decimal (positional notation, which Python uses between 1e-4 and
    1e16). *)
Definition str_float (q : Q) : string :=
  let n := Z.abs (Qnum q) in
  let d := Z.pos (Qden q) in
  let k := escala_min 16 1 n d in
  let m := n * 10 ^ Z.of_nat k / d in
  (if Qnum q <? 0 then "-" else "")
    +:+ pretty (m / 10 ^ Z.of_nat k) +:+ "."
    +:+ rellena k (pretty (m mod 10 ^ Z.of_nat k)).

(** [x] rounded to the nearest integer, ties to even. *)
Definition redondea (q : Q) : Z :=
  let n := Qnum q in
  let d := Z.pos (Qden q) in
  let c := n / d in
  let r := n mod d in
  if 2 * r <? d then c
  else if d <? 2 * r then c + 1
  else if Z.even c then c else c + 1.

(** [format(x, '.<dec>f')]. *)
Definition formato_f (dec : nat) (q : Q) : string :=
  let e := 10 ^ Z.of_nat dec in
  let m := redondea (q * inject_Z e) in
  let a := Z.abs m in
  (if m <? 0 then "-" else "")
    +:+ pretty (a / e)
    +:+ (match dec with
        | O => ""
        | _ => "." +:+ rellena dec (pretty (a mod e))
        end).

(** [format(x, '.<dec>%')]. *)
Definition porcentaje (dec : nat) (q : Q) : string :=
  formato_f dec (q * 100) +:+ "%".

(** [d.strftime('%Y-%m-%d')]. *)
Definition strftime_iso (f : Fecha) : string :=
  rellena 4 (pretty (anio f)) +:+ "-" +:+ rellena 2 (pretty (mes f))
    +:+ "-" +:+ rellena 2 (pretty (dia f)).

(** [str(v)], which is also what an f-string field without format does. *)
Definition py_str (v : value) : string :=
  match v with
  | VNone => "None"
  | VInt z => pretty z
  | VFloat q => str_float q
  | VStr s => s
  | VFecha f => strftime_iso f
  end.

(** ** Exceptions *)

Inductive ClaseExc :=
| KeyError | TypeError | AttributeError | IndexError | ValueError | OtraExc.

Record Excepcion := { clase : ClaseExc; texto : string }.

(** [str(e)]. *)
Definition str_exc (e : Excepcion) : string := texto e.

Inductive Resultado (A : Type) :=
| Vuelve (a : A)
| Lanza (e : Excepcion).
Arguments Vuelve {A} a.
Arguments Lanza {A} e.

(** ** The world *)

Inductive Nivel := INFO | WARNING | ERROR | CRITICAL.

Record FilaHistorico := {
  h_id : Z;
  h_timestamp : value;
  h_temperatura : value;
  h_humedad : value;
  h_lluvia : value;
  h_clima : value;
  h_viento_kmh : value }.

Record FilaAlerta := {
  a_id : Z;
  a_tipo_alerta : string;
  a_descripcion : string;
  a_clima_id : Z }.

Record FilaFeedback := {
  f_id : Z;
  f_alerta_id : Z;
  f_feedback : string }.

(** The three tables of [_create_tables].  Every [id] is
    [INTEGER PRIMARY KEY AUTOINCREMENT]: [sec_*] is the largest id given so
    far, and the next row gets its successor. *)
Record BD := {
  historico : list FilaHistorico;
  sec_historico : nat;
  alertas_emitidas : list FilaAlerta;
  sec_alertas : nat;
  feedback_usuario : list FilaFeedback;
  sec_feedback : nat;
  fallos_bd : list (option string) }.

(** A trained classifier, as far as the code uses it: [predict] gives the
    class of each row of features, [predict_proba] the class probabilities of
    each row.  Either may raise. *)
Record Modelo := {
  predict : list (list value) -> Resultado (list Z);
  predict_proba : list (list value) -> Resultado (list (list Q)) }.

(** The file [modelo_riesgo.pkl]: missing, present but such that
    [joblib.load] raises an exception of text [e], or holding a model. *)
Inductive Archivo :=
| Ausente
| Ilegible (e : string)
| Guardado (m : Modelo).

Record Disco := {
  modelo_file : Archivo;
  fallos_disco : list (option string) }.

(** Calls made on the collaborators, in order. *)
Inductive Evento :=
| EvInsertHistoricoClima (ts temp hum lluvia clima viento : value) (res : option Z)
| EvInsertAlertaEmitida (tipo desc : string) (clima_id : Z) (res : option Z)
| EvInsertFeedback (alerta_id : Z) (feedback : string) (res : option Z)
| EvSelect (ok : bool)
| EvEnviarAlertaGeneral (mensaje : string) (alerta_id : Z)
| EvSendError (modulo error : string)
| EvEnviarAlertaPronostico (fecha lluvia descripcion : value)
| EvTrainTestSplit
| EvFit
| EvPredict
| EvClassificationReport
| EvPrint (texto : string)
| EvDump (ok : bool).

Record Mundo := {
  bd : BD;
  disco : Disco;
  registro : list (Nivel * string);
  traza : list Evento }.

Definition con_bd (b : BD) (w : Mundo) : Mundo :=
  {| bd := b; disco := disco w; registro := registro w; traza := traza w |}.
Definition con_disco (d : Disco) (w : Mundo) : Mundo :=
  {| bd := bd w; disco := d; registro := registro w; traza := traza w |}.
Definition con_registro (r : list (Nivel * string)) (w : Mundo) : Mundo :=
  {| bd := bd w; disco := disco w; registro := r; traza := traza w |}.
Definition con_traza (t : list Evento) (w : Mundo) : Mundo :=
  {| bd := bd w; disco := disco w; registro := registro w; traza := t |}.

(** ** The monad of methods *)

Definition M (A : Type) : Type := Mundo -> Mundo * Resultado A.

Definition ret {A} (a : A) : M A := fun w => (w, Vuelve a).

Definition bind {A B} (c : M A) (k : A -> M B) : M B :=
  fun w =>
    match c w with
    | (w', Vuelve a) => k a w'
    | (w', Lanza e) => (w', Lanza e)
    end.

Definition raise {A} (e : Excepcion) : M A := fun w => (w, Lanza e).

(** [try: c  except Exception as e: h e]. *)
Definition try_except {A} (c : M A) (h : Excepcion -> M A) : M A :=
  fun w =>
    match c w with
    | (w', Vuelve a) => (w', Vuelve a)
    | (w', Lanza e) => h e w'
    end.

Definition lift {A} (r : Resultado A) : M A := fun w => (w, r).

Notation "'do' x <- c ; k" := (bind c (fun x => k))
  (at level 10, x name, c at level 100, k at level 200).
Notation "'do' ' p <- c ; k" := (bind c (fun x => match x with p => k end))
  (at level 10, p pattern, c at level 100, k at level 200).
Notation "'run' c ; k" := (bind c (fun _ => k))
  (at level 10, c at level 100, k at level 200).

Definition log (n : Nivel) (msg : string) : M unit :=
  fun w => (con_registro (registro w ++ [(n, msg)]) w, Vuelve tt).

Definition emite (e : Evento) : M unit :=
  fun w => (con_traza (traza w ++ [e]) w, Vuelve tt).

(** ** Operations on values *)

Definition key_error {A} (k : string) : Resultado A :=
  Lanza {| clase := KeyError; texto := "'" +:+ k +:+ "'" |}.

(** [d[k]]. *)
Definition getitem (d : gmap string value) (k : string) : M value :=
  lift (match d !! k with
        | Some v => Vuelve v
        | None => key_error k
        end).

(** [d.get(k, def)]. *)
Definition get (d : gmap string value) (k : string) (def : value) : value :=
  default def (d !! k).

Definition fecha_leb (a b : Fecha) : bool :=
  match anio a ?= anio b with
  | Lt => true
  | Gt => false
  | Eq => match mes a ?= mes b with
          | Lt => true
          | Gt => false
          | Eq => dia a <=? dia b
          end
  end.

Definition type_error {A} (op : string) (a b : value) : Resultado A :=
  Lanza {| clase := TypeError;
           texto := "'" +:+ op +:+ "' not supported between instances of '"
                      +:+ type_name a +:+ "' and '" +:+ type_name b +:+ "'" |}.

(** The value of [a >= b], or the exception it raises. *)
Definition ge_r (a b : value) : Resultado bool :=
  if is_num a && is_num b then Vuelve (Qle_bool (to_Q b) (to_Q a))
  else
    match a, b with
    | VStr s, VStr t => Vuelve (String.leb t s)
    | VFecha f, VFecha g => Vuelve (fecha_leb g f)
    | _, _ => type_error ">=" a b
    end.

(** The value of [a <= b], or the exception it raises. *)
Definition le_r (a b : value) : Resultado bool :=
  if is_num a && is_num b then Vuelve (Qle_bool (to_Q a) (to_Q b))
  else
    match a, b with
    | VStr s, VStr t => Vuelve (String.leb s t)
    | VFecha f, VFecha g => Vuelve (fecha_leb f g)
    | _, _ => type_error "<=" a b
    end.

Definition ge (a b : value) : M bool := lift (ge_r a b).
Definition le (a b : value) : M bool := lift (le_r a b).

(** [x or y], which evaluates [y] only when [x] is false. *)
Definition py_or (x y : M bool) : M bool :=
  do a <- x; if a then ret true else y.

(** ** db_manager.py *)

Definition con_fallos_bd (fs : list (option string)) (b : BD) : BD :=
  {| historico := historico b; sec_historico := sec_historico b;
     alertas_emitidas := alertas_emitidas b; sec_alertas := sec_alertas b;
     feedback_usuario := feedback_usuario b; sec_feedback := sec_feedback b;
     fallos_bd := fs |}.

(** The environment's decision for the next statement: [Some msg] when it
    fails with [sqlite3.Error(msg)]. *)
Definition siguiente_fallo (b : BD) : option string * BD :=
  match fallos_bd b with
  | [] => (None, b)
  | f :: fs => (f, con_fallos_bd fs b)
  end.

(** [_execute_write_query], for an INSERT whose effect on the tables is
    [inserta], which also gives [cursor.lastrowid]. *)
Definition _execute_write_query (inserta : BD -> BD * Z)
    (query log_success_msg : string) : M (option Z) :=
  fun w =>
    match siguiente_fallo (bd w) with
    | (None, b) =>
        let '(b', lastrowid) := inserta b in
        (if String.eqb log_success_msg "" then ret (Some lastrowid)
         else run log INFO log_success_msg; ret (Some lastrowid))
          (con_bd b' w)
    | (Some e, b) =>
        (run log ERROR ("Error en consulta de escritura: " +:+ e
                          +:+ " | Query: " +:+ query);
         ret None) (con_bd b w)
    end.

Definition sql_insert_historico : string :=
  "INSERT INTO historico (timestamp, temperatura, humedad, lluvia, clima, viento_kmh)"
    +:+ nl +:+ "                   VALUES (?, ?, ?, ?, ?, ?)".

Definition sql_insert_alerta : string :=
  "INSERT INTO alertas_emitidas (tipo_alerta, descripcion, clima_id)"
    +:+ nl +:+ "                   VALUES (?, ?, ?)".

Definition sql_insert_feedback : string :=
  "INSERT INTO feedback_usuario (alerta_id, feedback) VALUES (?, ?)".

Definition insert_historico_clima
    (timestamp temperatura humedad lluvia clima viento_kmh : value)
  : M (option Z) :=
  do res <- _execute_write_query
      (fun b =>
         let id := Z.of_nat (S (sec_historico b)) in
         ({| historico := historico b ++
               [{| h_id := id; h_timestamp := timestamp;
                   h_temperatura := temperatura; h_humedad := humedad;
                   h_lluvia := lluvia; h_clima := clima;
                   h_viento_kmh := viento_kmh |}];
             sec_historico := S (sec_historico b);
             alertas_emitidas := alertas_emitidas b;
             sec_alertas := sec_alertas b;
             feedback_usuario := feedback_usuario b;
             sec_feedback := sec_feedback b;
             fallos_bd := fallos_bd b |}, id))
      sql_insert_historico "Datos de clima insertados en histórico.";
  run emite (EvInsertHistoricoClima timestamp temperatura humedad lluvia
               clima viento_kmh res);
  ret res.

Definition insert_alerta_emitida (tipo_alerta descripcion : string)
    (clima_id : Z) : M (option Z) :=
  do res <- _execute_write_query
      (fun b =>
         let id := Z.of_nat (S (sec_alertas b)) in
         ({| historico := historico b;
             sec_historico := sec_historico b;
             alertas_emitidas := alertas_emitidas b ++
               [{| a_id := id; a_tipo_alerta := tipo_alerta;
                   a_descripcion := descripcion; a_clima_id := clima_id |}];
             sec_alertas := S (sec_alertas b);
             feedback_usuario := feedback_usuario b;
             sec_feedback := sec_feedback b;
             fallos_bd := fallos_bd b |}, id))
      sql_insert_alerta ("Alerta '" +:+ tipo_alerta +:+ "' registrada.");
  run emite (EvInsertAlertaEmitida tipo_alerta descripcion clima_id res);
  ret res.

Definition insert_feedback (alerta_id : Z) (feedback : string)
  : M (option Z) :=
  do res <- _execute_write_query
      (fun b =>
         let id := Z.of_nat (S (sec_feedback b)) in
         ({| historico := historico b;
             sec_historico := sec_historico b;
             alertas_emitidas := alertas_emitidas b;
             sec_alertas := sec_alertas b;
             feedback_usuario := feedback_usuario b ++
               [{| f_id := id; f_alerta_id := alerta_id;
                   f_feedback := feedback |}];
             sec_feedback := S (sec_feedback b);
             fallos_bd := fallos_bd b |}, id))
      sql_insert_feedback "Feedback de usuario registrado.";
  run emite (EvInsertFeedback alerta_id feedback res);
  ret res.

(** [if x:] for the [lastrowid] or [None] that an insertion returns. *)
Definition truthy_id (x : option Z) : option Z :=
  match x with
  | Some z => if z =? 0 then None else Some z
  | None => None
  end.

(** ** notifier.py

    The three methods that the analyser calls.  Each formats its text and
    hands it to [send_message], which catches the failures of the HTTP
    exchange itself; the event stands for that hand-over. *)

Definition enviar_alerta_general (mensaje : string) (alerta_id : Z) : M unit :=
  run log WARNING ("Enviando alerta general para alerta_id " +:+ pretty alerta_id);
  emite (EvEnviarAlertaGeneral mensaje alerta_id).

Definition send_error (modulo error : string) : M unit :=
  emite (EvSendError modulo error).

Definition attribute_error {A} (v : value) (attr : string) : M A :=
  raise {| clase := AttributeError;
           texto := "'" +:+ type_name v +:+ "' object has no attribute '"
                      +:+ attr +:+ "'" |}.

(** What [f"{lluvia:.1f}"] requires of [lluvia]. *)
Definition formatea_1f (lluvia : value) : M unit :=
  match lluvia with
  | VInt _ | VFloat _ | VFecha _ => ret tt
  | VNone =>
      raise {| clase := TypeError;
               texto := "unsupported format string passed to NoneType.__format__" |}
  | VStr _ =>
      raise {| clase := ValueError;
               texto := "Unknown format code 'f' for object of type 'str'" |}
  end.

(** What [fecha.strftime(...)] requires of [fecha]. *)
Definition tiene_strftime (fecha : value) : M Fecha :=
  match fecha with
  | VFecha f => ret f
  | _ => attribute_error fecha "strftime"
  end.

Definition enviar_alerta_pronostico (fecha lluvia descripcion : value) : M unit :=
  run formatea_1f lluvia;
  do _ <- tiene_strftime fecha;
  emite (EvEnviarAlertaPronostico fecha lluvia descripcion).

(** ** predictor.py *)

Record Predictor := { modelo : option Modelo }.

Definition index_error {A} (i : nat) : M A :=
  raise {| clase := IndexError;
           texto := "index " +:+ pretty i +:+ " is out of bounds" |}.

(** [l[i]] for [i >= 0]. *)
Definition item {A} (l : list A) (i : nat) : M A :=
  match l !! i with
  | Some x => ret x
  | None => index_error i
  end.

Definition predecir (self : Predictor) (temperatura humedad lluvia : value)
  : M (option (Z * Q)) :=
  match modelo self with
  | None =>
      run log ERROR "El modelo no está disponible para realizar predicciones.";
      ret None
  | Some m =>
      try_except
        (let entrada := [[temperatura; humedad; lluvia]] in
         do clases <- lift (predict m entrada);
         do resultado_binario <- item clases 0;
         do probas <- lift (predict_proba m entrada);
         do probabilidades <- item probas 0;
         do probabilidad_riesgo <- item probabilidades 1;
         run log INFO ("Predicción: "
                         +:+ (if resultado_binario =? 1 then "RIESGO" else "NORMAL")
                         +:+ ". Confianza de riesgo: "
                         +:+ porcentaje 2 probabilidad_riesgo);
         ret (Some (resultado_binario, probabilidad_riesgo)))
        (fun e =>
           run log ERROR ("Error durante la predicción: " +:+ str_exc e);
           ret None)
  end.

(** ** analizador.py *)

(** [self.db] and [self.notifier] are the world's; [predictor] is [None]
    when the caller passes none, as the forecast task does. *)
Record Analizador := {
  predictor : option Predictor;
  umbrales : gmap string value }.

(** [' y '.join(motivo)]. *)
Fixpoint join (sep : string) (l : list string) : string :=
  match l with
  | [] => ""
  | [s] => s
  | s :: r => s +:+ sep +:+ join sep r
  end.

Definition _construir_mensaje_alerta (datos : gmap string value)
    (por_umbral por_ia : bool) (prob_ia : Q) : M string :=
  let motivo :=
    (if por_umbral then ["Umbrales Superados"] else [])
      ++ (if por_ia then ["Predicción IA"] else []) in
  do temperatura <- getitem datos "temperatura";
  do humedad <- getitem datos "humedad";
  do lluvia <- getitem datos "lluvia";
  ret ("⚠️ *ALERTA CLIMÁTICA DETECTADA*" +:+ nl
       +:+ "Motivo: *" +:+ join " y " motivo +:+ "*" +:+ nl +:+ nl
       +:+ "🌡️ Temperatura: *" +:+ py_str temperatura +:+ "°C*" +:+ nl
       +:+ "💧 Humedad: *" +:+ py_str humedad +:+ "%*" +:+ nl
       +:+ "🌧️ Lluvia: *" +:+ py_str lluvia +:+ " mm*" +:+ nl +:+ nl
       +:+ "🤖 Análisis IA (Prob. de Riesgo): *" +:+ porcentaje 1 prob_ia +:+ "*").

(** The rule evaluation of [analizar]: a chain of [or], left to right. *)
Definition evalua_umbrales (self : Analizador) (datos_clima : gmap string value)
  : M bool :=
  py_or (do t <- getitem datos_clima "temperatura";
         do u <- getitem (umbrales self) "limite_temp_max";
         ge t u)
 (py_or (do t <- getitem datos_clima "temperatura";
         do u <- getitem (umbrales self) "limite_temp_min";
         le t u)
 (py_or (do h <- getitem datos_clima "humedad";
         do u <- getitem (umbrales self) "limite_humedad";
         ge h u)
        (do l <- getitem datos_clima "lluvia";
         do u <- getitem (umbrales self) "limite_lluvia_mm";
         ge l u))).

(** The model evaluation of [analizar]: the final values of [riesgo_ia] and
    [probabilidad_riesgo_ia]. *)
Definition evalua_ia (self : Analizador) (datos_clima : gmap string value)
  : M (bool * Q) :=
  match predictor self with
  | None => attribute_error VNone "modelo"
  | Some p =>
      match modelo p with
      | None => ret (false, 0%Q)
      | Some _ =>
          do t <- getitem datos_clima "temperatura";
          do h <- getitem datos_clima "humedad";
          do l <- getitem datos_clima "lluvia";
          do res_prediccion <- predecir p t h l;
          match res_prediccion with
          | None => ret (false, 0%Q)
          | Some (_, probabilidad_riesgo_ia) =>
              let umbral_ia :=
                get (umbrales self) "umbral_ia_probabilidad" (VFloat (3 # 4)) in
              do riesgo_ia <- ge (VFloat probabilidad_riesgo_ia) umbral_ia;
              ret (riesgo_ia, probabilidad_riesgo_ia)
          end
      end
  end.

(** Lines 27 to 46 of [analizar]: [riesgo_umbral], [riesgo_ia] and
    [probabilidad_riesgo_ia] as they stand when the decision is taken. *)
Definition decision (self : Analizador) (datos_clima : gmap string value)
  : M (bool * bool * Q) :=
  do riesgo_umbral <- evalua_umbrales self datos_clima;
  do '(riesgo_ia, probabilidad_riesgo_ia) <- evalua_ia self datos_clima;
  ret (riesgo_umbral, riesgo_ia, probabilidad_riesgo_ia).

(** Lines 50 to 64 of [analizar]: what is done when the decision is to
    alert. *)
Definition emite_alerta (datos_clima : gmap string value)
    (riesgo_umbral riesgo_ia : bool) (probabilidad_riesgo_ia : Q) : M unit :=
  do mensaje <- _construir_mensaje_alerta datos_clima riesgo_umbral riesgo_ia
                  probabilidad_riesgo_ia;
  do ts <- getitem datos_clima "timestamp";
  do t <- getitem datos_clima "temperatura";
  do h <- getitem datos_clima "humedad";
  do l <- getitem datos_clima "lluvia";
  do c <- getitem datos_clima "clima";
  do clima_id <- insert_historico_clima ts t h l c
                   (get datos_clima "viento_kmh" (VInt 0));
  match truthy_id clima_id with
  | Some clima_id =>
      let tipo := if riesgo_ia && negb riesgo_umbral then "ia" else "umbral" in
      do alerta_id <- insert_alerta_emitida ("riesgo_" +:+ tipo) mensaje clima_id;
      match truthy_id alerta_id with
      | Some alerta_id => enviar_alerta_general mensaje alerta_id
      | None => ret tt
      end
  | None => ret tt
  end.

(** The body of the [try] of [analizar]. *)
Definition analizar_cuerpo (self : Analizador) (datos_clima : gmap string value)
  : M unit :=
  do '(riesgo_umbral, riesgo_ia, probabilidad_riesgo_ia) <-
    decision self datos_clima;
  if riesgo_umbral || riesgo_ia then
    emite_alerta datos_clima riesgo_umbral riesgo_ia probabilidad_riesgo_ia
  else
    log INFO "Condiciones normales. No se requiere alerta.".

Definition analizar (self : Analizador) (datos_clima : gmap string value)
  : M unit :=
  try_except (analizar_cuerpo self datos_clima)
    (fun e =>
       run log CRITICAL ("Error crítico en el proceso de análisis híbrido: "
                           +:+ str_exc e);
       send_error "analizador_hibrido" (str_exc e)).

(** One turn of the loop of [analizar_pronostico]. *)
Definition analiza_dia (self : Analizador) (dia : gmap string value) : M unit :=
  do fecha_pronostico <- getitem dia "fecha";
  let lluvia_prevista := get dia "lluvia" (VInt 0) in
  do limite <- getitem (umbrales self) "limite_lluvia_mm";
  do supera <- ge lluvia_prevista limite;
  if supera then
    do f <- tiene_strftime fecha_pronostico;
    run log WARNING ("Se detectó pronóstico de lluvia significativa ("
                       +:+ py_str lluvia_prevista +:+ " mm) para el día "
                       +:+ strftime_iso f +:+ ".");
    do descripcion <- getitem dia "clima";
    enviar_alerta_pronostico fecha_pronostico lluvia_prevista descripcion
  else ret tt.

(** [for x in l: f x]. *)
Fixpoint for_each {A} (l : list A) (f : A -> M unit) : M unit :=
  match l with
  | [] => ret tt
  | x :: r => run f x; for_each r f
  end.

Definition analizar_pronostico (self : Analizador)
    (pronostico_diario : list (gmap string value)) : M unit :=
  run log INFO "Analizando pronóstico extendido...";
  try_except (for_each (take 2 pronostico_diario) (analiza_dia self))
    (fun e => log ERROR ("Error analizando el pronóstico: " +:+ str_exc e)).

(** ** modelo_adaptativo.py *)

(** [execute_select_query] applied to the query of
    [_cargar_datos_entrenamiento]:

      SELECT h.temperatura, h.humedad, h.lluvia, f.feedback
      FROM feedback_usuario f
      JOIN alertas_emitidas a ON f.alerta_id = a.id
      JOIN historico h ON a.clima_id = h.id
      WHERE h.temperatura IS NOT NULL AND f.feedback IN ('bien', 'mal') *)
Definition is_not_null (v : value) : bool :=
  match v with
  | VNone => false
  | _ => true
  end.

Definition consulta_entrenamiento (b : BD)
  : list (value * value * value * string) :=
  flat_map (fun f =>
    flat_map (fun a =>
      flat_map (fun h =>
        if is_not_null (h_temperatura h)
           && (String.eqb (f_feedback f) "bien" || String.eqb (f_feedback f) "mal")
        then [(h_temperatura h, h_humedad h, h_lluvia h, f_feedback f)]
        else [])
        (filter (fun h => a_clima_id a = h_id h) (historico b)))
      (filter (fun a => f_alerta_id f = a_id a) (alertas_emitidas b)))
    (feedback_usuario b).

Definition execute_select_query {A} (consulta : BD -> list A) (query : string)
  : M (option (list A)) :=
  fun w =>
    match siguiente_fallo (bd w) with
    | (None, b) =>
        (run emite (EvSelect true); ret (Some (consulta b))) (con_bd b w)
    | (Some e, b) =>
        (run log ERROR ("Error en consulta SELECT: " +:+ e
                          +:+ " | Query: " +:+ query);
         run emite (EvSelect false);
         ret None) (con_bd b w)
    end.

Definition sql_entrenamiento : string :=
  "SELECT h.temperatura, h.humedad, h.lluvia, f.feedback "
    +:+ "FROM feedback_usuario f "
    +:+ "JOIN alertas_emitidas a ON f.alerta_id = a.id "
    +:+ "JOIN historico h ON a.clima_id = h.id "
    +:+ "WHERE h.temperatura IS NOT NULL AND f.feedback IN ('bien', 'mal')".

(** The loop of [_cargar_datos_entrenamiento], which appends to [X] and to
    [y] together. *)
Fixpoint acumula (registros : list (value * value * value * string))
    (X : list (list value)) (y : list Z) : list (list value) * list Z :=
  match registros with
  | [] => (X, y)
  | (temp, hum, lluvia, feedback) :: r =>
      if forallb is_not_null [temp; hum; lluvia]
      then acumula r (X ++ [[temp; hum; lluvia]])
                   (y ++ [if String.eqb feedback "mal" then 1 else 0])
      else acumula r X y
  end.

(** [_cargar_datos_entrenamiento]; the result [(None, None)] is [None]. *)
Definition _cargar_datos_entrenamiento
  : M (option (list (list value) * list Z)) :=
  try_except
    (do registros <- execute_select_query consulta_entrenamiento sql_entrenamiento;
     match registros with
     | None | Some [] => ret None
     | Some registros =>
         let '(X, y) := acumula registros [] [] in
         run log INFO ("Se cargaron " +:+ pretty (length X)
                         +:+ " registros de entrenamiento válidos.");
         ret (Some (X, y))
     end)
    (fun e =>
       run log ERROR ("Error cargando datos de entrenamiento: " +:+ str_exc e);
       ret None).

(** The functions of scikit-learn that [entrenar_y_guardar] calls, with the
    arguments it gives them.  The repository does not contain them; each may
    raise. *)
Record Sklearn := {
  train_test_split :
    list (list value) -> list Z ->
    forall (test_size : Q) (random_state : Z) (stratify : list Z),
      Resultado (list (list value) * list (list value) * list Z * list Z);
  RandomForestClassifier_fit :
    forall (n_estimators : nat) (random_state : Z) (class_weight : string),
      list (list value) -> list Z -> Resultado Modelo;
  classification_report :
    list Z -> list Z -> forall (target_names : list string), Resultado string }.

Definition con_modelo_file (a : Archivo) (fs : list (option string)) : Disco :=
  {| modelo_file := a; fallos_disco := fs |}.

(** [joblib.dump(modelo, MODELO_FILE)] inside its [try]. *)
Definition guarda_modelo (m : Modelo) : M unit :=
  fun w =>
    match fallos_disco (disco w) with
    | Some e :: fs =>
        (run emite (EvDump false);
         log ERROR ("Error al guardar el modelo: " +:+ e))
          (con_disco (con_modelo_file (modelo_file (disco w)) fs) w)
    | None :: fs =>
        (run emite (EvDump true);
         log INFO "Modelo guardado exitosamente en 'modelo_riesgo.pkl'.")
          (con_disco (con_modelo_file (Guardado m) fs) w)
    | [] =>
        (run emite (EvDump true);
         log INFO "Modelo guardado exitosamente en 'modelo_riesgo.pkl'.")
          (con_disco (con_modelo_file (Guardado m) []) w)
    end.

Definition entrenar_y_guardar (sk : Sklearn) : M unit :=
  do datos <- _cargar_datos_entrenamiento;
  match datos with
  | None =>
      log WARNING ("No hay suficientes datos (0/20) para entrenar un nuevo modelo.")
  | Some (X, y) =>
      if (length X <? 20)%nat then
        log WARNING ("No hay suficientes datos (" +:+ pretty (length X)
                       +:+ "/20) para entrenar un nuevo modelo.")
      else
        run emite EvTrainTestSplit;
        do '(X_train, X_test, y_train, y_test) <-
          lift (train_test_split sk X y (1 # 4) 42 y);
        run emite EvFit;
        do modelo <-
          lift (RandomForestClassifier_fit sk 100 42 "balanced" X_train y_train);
        run emite EvPredict;
        do y_pred <- lift (predict modelo X_test);
        run emite EvClassificationReport;
        do reporte <-
          lift (classification_report sk y_test y_pred
                  ["Normal (0)"; "Riesgo (1)"]);
        run log INFO "--- Reporte de Clasificación del Modelo ---";
        run emite (EvPrint (nl +:+ reporte));
        run log INFO "--- Fin del Reporte ---";
        guarda_modelo modelo
  end.

(** [cargar_modelo], a static method. *)
Definition cargar_modelo : M (option Modelo) :=
  fun w =>
    match modelo_file (disco w) with
    | Guardado m =>
        (run log INFO "Modelo cargado desde 'modelo_riesgo.pkl'."; ret (Some m)) w
    | Ausente =>
        (run log WARNING ("No se encontró un archivo de modelo en "
                            +:+ "'modelo_riesgo.pkl'. Se operará sin modelo predictivo.");
         ret None) w
    | Ilegible e =>
        (run log ERROR ("Error al cargar el modelo: " +:+ e); ret None) w
    end.

(** [Predictor.__init__]. *)
Definition Predictor_init (modelo_cargado : option Modelo) : M Predictor :=
  run (match modelo_cargado with
       | Some _ => log INFO "Predictor inicializado con un modelo cargado."
       | None => log WARNING ("Predictor inicializado sin un modelo. "
                                +:+ "No podrá realizar predicciones.")
       end);
  ret {| modelo := modelo_cargado |}.

(** Lines 33 and 34 of [main.py]: how every cycle creates its predictor. *)
Definition carga_predictor : M Predictor :=
  do modelo <- cargar_modelo;
  Predictor_init modelo.

(** ** db_manager.py: the status summary *)

(** [SELECT COUNT( * ) FROM historico]: one row, the number of rows. *)
Definition consulta_total (b : BD) : list Z :=
  [Z.of_nat (length (historico b))].

(** The row of largest id among [l], if any. *)
Fixpoint fila_mas_reciente (l : list FilaHistorico) : option FilaHistorico :=
  match l with
  | [] => None
  | f :: r =>
      match fila_mas_reciente r with
      | Some g => if h_id f <? h_id g then Some g else Some f
      | None => Some f
      end
  end.

(** [SELECT timestamp FROM historico ORDER BY id DESC LIMIT 1]. *)
Definition consulta_ultimo (b : BD) : list value :=
  match fila_mas_reciente (historico b) with
  | Some f => [h_timestamp f]
  | None => []
  end.

Definition sql_total : string :=
  "SELECT COUNT(" +:+ String (Ascii.ascii_of_nat 42) ") FROM historico".

Definition sql_ultimo : string :=
  "SELECT timestamp FROM historico ORDER BY id DESC LIMIT 1".

Definition summary_inicial : gmap string value :=
  <["total" := VInt 0]> (<["ultimo" := VStr "N/A"]> ∅).

(** [get_status_summary].  The dict [summary] is updated in place in the
    source; [execute_select_query] catches the errors of the database
    itself, so the [except] clause is reached with no update lost. *)
Definition get_status_summary : M (gmap string value) :=
  let summary := summary_inicial in
  try_except
    (do total_res <- execute_select_query consulta_total sql_total;
     let summary :=
       match total_res with
       | Some (total :: _) => <["total" := VInt total]> summary
       | _ => summary
       end in
     do ultimo_res <- execute_select_query consulta_ultimo sql_ultimo;
     let summary :=
       match ultimo_res with
       | Some (ultimo :: _) => <["ultimo" := ultimo]> summary
       | _ => summary
       end in
     ret summary)
    (fun e =>
       run log ERROR ("Error al obtener el resumen de estado: " +:+ str_exc e);
       ret summary).

(** ** main.py: the analysis of one cycle *)

(** [Analizador.__init__]. *)
Definition Analizador_init (predictor : option Predictor)
    (umbrales : gmap string value) : M Analizador :=
  run log INFO "Analizador Híbrido (Reglas + IA) inicializado.";
  ret {| predictor := predictor; umbrales := umbrales |}.

(** Lines 33 to 35, 38 and 39 of [tarea_ciclo_principal]: the model is
    loaded from the file and wrapped in a predictor, the analyser is built on
    it, and the reading is analysed when there is one.  [datos] is what
    [obtener_datos_actuales] returned: [None], or a dict, which is true when
    it is not empty. *)
Definition ciclo_analisis (umbrales : gmap string value)
    (datos : option (gmap string value)) : M unit :=
  do predictor <- carga_predictor;
  do analizador <- Analizador_init (Some predictor) umbrales;
  match datos with
  | None => ret tt
  | Some d =>
      match map_to_list d with
      | [] => ret tt
      | _ :: _ => analizar analizador d
      end
  end.

(** ** The feedback buttons: notifier.py and clima_bot.py *)

(** The [callback_data] that [enviar_alerta_general] gives to each of its two
    buttons: [f"feedback:{alerta_id}:bien"] and [f"feedback:{alerta_id}:mal"]. *)
Definition callback_data (alerta_id : Z) (opinion : string) : string :=
  "feedback:" +:+ pretty alerta_id +:+ ":" +:+ opinion.

Definition dos_puntos : Ascii.ascii := Ascii.ascii_of_nat 58.

(** [s.split(sep)] for a separator of one character. *)
Fixpoint str_split (sep : Ascii.ascii) (s : string) : list string :=
  match s with
  | EmptyString => [""]
  | String a r =>
      if Ascii.eqb a sep then "" :: str_split sep r
      else
        match str_split sep r with
        | x :: xs => String a x :: xs
        | [] => [String a ""]
        end
  end.

(** The first line of the [try] of [feedback_handler]:
    [_, alerta_id_str, opinion = query.data.split(':')]. *)
Definition desempaqueta_callback (data : string) : Resultado (string * string) :=
  match str_split dos_puntos data with
  | [_; alerta_id_str; opinion] => Vuelve (alerta_id_str, opinion)
  | _ :: _ :: _ :: _ :: _ =>
      Lanza {| clase := ValueError;
               texto := "too many values to unpack (expected 3)" |}
  | partes =>
      Lanza {| clase := ValueError;
               texto := "not enough values to unpack (expected 3, got "
                          +:+ pretty (length partes) +:+ ")" |}
  end.

(** * Vocabulary of the statements *)

(** The events that a run from [w] to [w'] added to the trace. *)
Definition nuevos (w w' : Mundo) : list Evento :=
  drop (length (traza w)) (traza w').

(** The risk probability that model [m] assigns to a reading: the second
    entry of the row of [predict_proba], when both calls of the adapter
    return and that entry exists. *)
Definition prob_modelo (m : Modelo) (t h l : value) : option Q :=
  match predict m [[t; h; l]], predict_proba m [[t; h; l]] with
  | Vuelve (_ :: _), Vuelve (fila :: _) => fila !! 1%nat
  | _, _ => None
  end.

(** [umbral_ia_probabilidad] of a snapshot, 0.75 when it does not set it. *)
Definition umbral_ia_de (u : gmap string value) : value :=
  match u !! "umbral_ia_probabilidad" with
  | Some v => v
  | None => VFloat (3 # 4)
  end.

(** [sub] occurs in [s]. *)
Definition contiene (s sub : string) : Prop :=
  exists pre post, s = pre +:+ sub +:+ post.

(** The [n]-th decision of a failure script. *)
Definition fallo_en (fs : list (option string)) (n : nat) : option string :=
  match fs !! n with
  | Some f => f
  | None => None
  end.

(** A computation that only reads: it leaves the world as it is. *)
Definition pura {A} (c : M A) : Prop := forall w, exists r, c w = (w, r).

(** A computation that may write to the log and does nothing else. *)
Definition solo_registra {A} (c : M A) : Prop :=
  forall w, bd (c w).1 = bd w /\ disco (c w).1 = disco w
            /\ traza (c w).1 = traza w.

Record lectura_numerica (datos : gmap string value) (t h l : value) : Prop := {
  ln_temperatura : datos !! "temperatura" = Some t;
  ln_humedad : datos !! "humedad" = Some h;
  ln_lluvia : datos !! "lluvia" = Some l;
  ln_t_num : is_num t = true;
  ln_h_num : is_num h = true;
  ln_l_num : is_num l = true }.

Record limites_numericos (u : gmap string value) (tmax tmin hlim llim : value)
  : Prop := {
  lim_temp_max : u !! "limite_temp_max" = Some tmax;
  lim_temp_min : u !! "limite_temp_min" = Some tmin;
  lim_humedad : u !! "limite_humedad" = Some hlim;
  lim_lluvia : u !! "limite_lluvia_mm" = Some llim;
  lim_tmax_num : is_num tmax = true;
  lim_tmin_num : is_num tmin = true;
  lim_hlim_num : is_num hlim = true;
  lim_llim_num : is_num llim = true }.

Record lectura_completa (datos : gmap string value) (ts t h l c : value)
  : Prop := {
  lc_timestamp : datos !! "timestamp" = Some ts;
  lc_temperatura : datos !! "temperatura" = Some t;
  lc_humedad : datos !! "humedad" = Some h;
  lc_lluvia : datos !! "lluvia" = Some l;
  lc_clima : datos !! "clima" = Some c }.

(** The kind under which [analizar] files an alert. *)
Definition tipo_de (riesgo_umbral riesgo_ia : bool) : string :=
  if riesgo_ia && negb riesgo_umbral then "riesgo_ia" else "riesgo_umbral".

(** The reasons as the message words them. *)
Definition motivo_de (riesgo_umbral riesgo_ia : bool) : string :=
  match riesgo_umbral, riesgo_ia with
  | true, true => "Umbrales Superados y Predicción IA"
  | true, false => "Umbrales Superados"
  | false, true => "Predicción IA"
  | false, false => ""
  end.

(** The handler of [analizar]. *)
Definition maneja (e : Excepcion) : M unit :=
  run log CRITICAL ("Error crítico en el proceso de análisis híbrido: "
                      +:+ str_exc e);
  send_error "analizador_hibrido" (str_exc e).

(** [analizar] goes on to alert: the first thing it asks of a collaborator is
    to store the reading. *)
Definition decide_alertar (self : Analizador) (datos : gmap string value)
    (w : Mundo) : Prop :=
  exists ts t h l c v res resto,
    nuevos w (analizar self datos w).1
    = EvInsertHistoricoClima ts t h l c v res :: resto.

(** What the three outcomes of the two insertions leave behind, between [w]
    and [w'], for a reading, a kind and a message. *)
Definition efectos_alerta (datos : gmap string value) (ts t h l c : value)
    (tipo msg : string) (w w' : Mundo) : Prop :=
  let cid := Z.of_nat (S (sec_historico (bd w))) in
  let aid := Z.of_nat (S (sec_alertas (bd w))) in
  let v := get datos "viento_kmh" (VInt 0) in
  let fila_h := {| h_id := cid; h_timestamp := ts; h_temperatura := t;
                   h_humedad := h; h_lluvia := l; h_clima := c;
                   h_viento_kmh := v |} in
  let fila_a := {| a_id := aid; a_tipo_alerta := tipo;
                   a_descripcion := msg; a_clima_id := cid |} in
  match fallo_en (fallos_bd (bd w)) 0, fallo_en (fallos_bd (bd w)) 1 with
  | Some _, _ =>
      nuevos w w' = [EvInsertHistoricoClima ts t h l c v None]
      /\ historico (bd w') = historico (bd w)
      /\ alertas_emitidas (bd w') = alertas_emitidas (bd w)
  | None, Some _ =>
      nuevos w w' =
        [EvInsertHistoricoClima ts t h l c v (Some cid);
         EvInsertAlertaEmitida tipo msg cid None]
      /\ historico (bd w') = historico (bd w) ++ [fila_h]
      /\ alertas_emitidas (bd w') = alertas_emitidas (bd w)
  | None, None =>
      nuevos w w' =
        [EvInsertHistoricoClima ts t h l c v (Some cid);
         EvInsertAlertaEmitida tipo msg cid (Some aid);
         EvEnviarAlertaGeneral msg aid]
      /\ historico (bd w') = historico (bd w) ++ [fila_h]
      /\ alertas_emitidas (bd w') = alertas_emitidas (bd w) ++ [fila_a]
  end.

(** [ev] is the advisory of entry [dia]: it carries its date, its rain and
    its condition, and its rain reaches the limit. *)
Definition aviso_de (self : Analizador) (dia : gmap string value)
    (ev : Evento) : Prop :=
  exists f d lim,
    ev = EvEnviarAlertaPronostico (VFecha f) (get dia "lluvia" (VInt 0)) d
    /\ dia !! "fecha" = Some (VFecha f)
    /\ dia !! "clima" = Some d
    /\ umbrales self !! "limite_lluvia_mm" = Some lim
    /\ ge_r (get dia "lluvia" (VInt 0)) lim = Vuelve true.

Record dia_bien_formado (d : gmap string value) : Prop := {
  df_fecha : exists f, d !! "fecha" = Some (VFecha f);
  df_clima : exists c, d !! "clima" = Some c;
  df_lluvia : is_num (get d "lluvia" (VInt 0)) = true }.

(** The advisory that entry [d] calls for under limit [lim]: none, or one
    with its date, its rain and its condition. *)
Definition aviso_esperado (lim : value) (d : gmap string value) : list Evento :=
  if Qle_bool (to_Q lim) (to_Q (get d "lluvia" (VInt 0)))
  then [EvEnviarAlertaPronostico (get d "fecha" VNone)
          (get d "lluvia" (VInt 0)) (get d "clima" VNone)]
  else [].

(** A row of the query whose three features are not null. *)
Definition fila_valida (r : value * value * value * string) : bool :=
  let '(temp, hum, lluvia, _) := r in
  is_not_null temp && is_not_null hum && is_not_null lluvia.

Definition rasgos (r : value * value * value * string) : list value :=
  let '(temp, hum, lluvia, _) := r in [temp; hum; lluvia].

Definition etiqueta (r : value * value * value * string) : Z :=
  let '(_, _, _, feedback) := r in if String.eqb feedback "mal" then 1 else 0.

(** The rows that [_cargar_datos_entrenamiento] keeps from database [b]. *)
Definition filas_validas (b : BD) : list (value * value * value * string) :=
  List.filter fila_valida (consulta_entrenamiento b).

Definition aviso_pocos_datos (n : string) : string :=
  "No hay suficientes datos (" +:+ n +:+ "/20) para entrenar un nuevo modelo.".

(** The database after one more reading, as [insert_historico_clima] leaves
    it when the statement succeeds. *)
Definition agrega_historico (f : FilaHistorico) (b : BD) : BD :=
  {| historico := historico b ++ [f];
     sec_historico := S (sec_historico b);
     alertas_emitidas := alertas_emitidas b;
     sec_alertas := sec_alertas b;
     feedback_usuario := feedback_usuario b;
     sec_feedback := sec_feedback b;
     fallos_bd := fallos_bd b |}.

(** The database after one more alert. *)
Definition agrega_alerta (a : FilaAlerta) (b : BD) : BD :=
  {| historico := historico b;
     sec_historico := sec_historico b;
     alertas_emitidas := alertas_emitidas b ++ [a];
     sec_alertas := S (sec_alertas b);
     feedback_usuario := feedback_usuario b;
     sec_feedback := sec_feedback b;
     fallos_bd := fallos_bd b |}.

(** The database after one more feedback. *)
Definition agrega_feedback (f : FilaFeedback) (b : BD) : BD :=
  {| historico := historico b;
     sec_historico := sec_historico b;
     alertas_emitidas := alertas_emitidas b;
     sec_alertas := sec_alertas b;
     feedback_usuario := feedback_usuario b ++ [f];
     sec_feedback := S (sec_feedback b);
     fallos_bd := fallos_bd b |}.

(** The reading and the alert that [analizar] files from world [w]. *)
Definition fila_de_lectura (datos : gmap string value) (ts t h l c : value)
    (w : Mundo) : FilaHistorico :=
  {| h_id := Z.of_nat (S (sec_historico (bd w))); h_timestamp := ts;
     h_temperatura := t; h_humedad := h; h_lluvia := l; h_clima := c;
     h_viento_kmh := get datos "viento_kmh" (VInt 0) |}.

Definition fila_de_alerta (tipo msg : string) (w : Mundo) : FilaAlerta :=
  {| a_id := Z.of_nat (S (sec_alertas (bd w))); a_tipo_alerta := tipo;
     a_descripcion := msg;
     a_clima_id := Z.of_nat (S (sec_historico (bd w))) |}.

(** The three states in which an alerting [analizar] can leave the
    database. *)
Definition bd_tras_alerta (fh : FilaHistorico) (fa : FilaAlerta) (b b' : BD)
  : Prop :=
  match fallo_en (fallos_bd b) 0, fallo_en (fallos_bd b) 1 with
  | Some _, _ => b' = con_fallos_bd (drop 1 (fallos_bd b)) b
  | None, Some _ =>
      b' = con_fallos_bd (drop 2 (fallos_bd b)) (agrega_historico fh b)
  | None, None =>
      b' = con_fallos_bd (drop 2 (fallos_bd b))
             (agrega_alerta fa (agrega_historico fh b))
  end.

(** The keys of the readings and of the alerts are positive, not above the
    counter of their table and pairwise distinct, and every alert refers to
    a reading that is there. *)
Record bd_integra (b : BD) : Prop := {
  bi_hist_ids :
    forall f, In f (historico b) -> 0 < h_id f <= Z.of_nat (sec_historico b);
  bi_hist_unicos : NoDup (map h_id (historico b));
  bi_alert_ids :
    forall a, In a (alertas_emitidas b) ->
              0 < a_id a <= Z.of_nat (sec_alertas b);
  bi_alert_unicos : NoDup (map a_id (alertas_emitidas b));
  bi_referencia :
    forall a, In a (alertas_emitidas b) ->
              exists f, In f (historico b) /\ h_id f = a_clima_id a }.


(** The four calls that [entrenar_y_guardar] makes on the learning library
    between the gate and the write: the split, the fit, the prediction on
    the held-out rows and the report. *)
Definition entrena_y_evalua (sk : Sklearn) (X : list (list value)) (y : list Z)
  : Resultado (Modelo * string) :=
  match train_test_split sk X y (1 # 4) 42 y with
  | Lanza e => Lanza e
  | Vuelve (X_train, X_test, y_train, y_test) =>
      match RandomForestClassifier_fit sk 100 42 "balanced" X_train y_train with
      | Lanza e => Lanza e
      | Vuelve m =>
          match predict m X_test with
          | Lanza e => Lanza e
          | Vuelve y_pred =>
              match classification_report sk y_test y_pred
                      ["Normal (0)"; "Riesgo (1)"] with
              | Lanza e => Lanza e
              | Vuelve reporte => Vuelve (m, reporte)
              end
          end
      end
  end.

(** The model that a cycle started in world [w] binds to. *)
Definition modelo_en_disco (w : Mundo) : option Modelo :=
  match modelo_file (disco w) with
  | Guardado m => Some m
  | _ => None
  end.

(** [s] does not contain the character [sep]. *)
Fixpoint sin_caracter (sep : Ascii.ascii) (s : string) : bool :=
  match s with
  | EmptyString => true
  | String a r => negb (Ascii.eqb a sep) && sin_caracter sep r
  end.

(** * Concrete data for the scenarios *)

Definition bd_vacia : BD :=
  {| historico := []; sec_historico := 0; alertas_emitidas := [];
     sec_alertas := 0; feedback_usuario := []; sec_feedback := 0;
     fallos_bd := [] |}.

Definition mundo_inicial : Mundo :=
  {| bd := bd_vacia;
     disco := {| modelo_file := Ausente; fallos_disco := [] |};
     registro := []; traza := [] |}.

Definition lectura (t h l : value) : gmap string value :=
  <["timestamp" := VStr "2024-05-01 12:00:00"]>
    (<["temperatura" := t]>
       (<["humedad" := h]>
          (<["lluvia" := l]>
             (<["clima" := VStr "Cielo claro"]>
                (<["viento_kmh" := VFloat (72 # 10)]> ∅))))).

Definition umbrales_ejemplo : gmap string value :=
  <["limite_temp_max" := VInt 35]>
    (<["limite_temp_min" := VInt 5]>
       (<["limite_humedad" := VInt 90]>
          (<["limite_lluvia_mm" := VInt 10]> ∅))).

(** A classifier that answers every row with class [c] and probability [p]
    of risk. *)
Definition modelo_constante (c : Z) (p : Q) : Modelo :=
  {| predict := fun X => Vuelve (map (fun _ => c) X);
     predict_proba := fun X => Vuelve (map (fun _ => [(1 - p)%Q; p]) X) |}.

Definition sin_modelo : Analizador :=
  {| predictor := Some {| modelo := None |}; umbrales := umbrales_ejemplo |}.

Definition con_modelo (p : Q) : Analizador :=
  {| predictor := Some {| modelo := Some (modelo_constante 1 p) |};
     umbrales := umbrales_ejemplo |}.


Definition fila_historico_ejemplo : FilaHistorico :=
  {| h_id := 1; h_timestamp := VStr "2024-05-01 12:00:00";
     h_temperatura := VFloat (385 # 10); h_humedad := VInt 50;
     h_lluvia := VFloat 0; h_clima := VStr "Cielo claro";
     h_viento_kmh := VFloat (72 # 10) |}.

Definition fila_alerta_ejemplo : FilaAlerta :=
  {| a_id := 1; a_tipo_alerta := "riesgo_umbral"; a_descripcion := "alerta";
     a_clima_id := 1 |}.

Definition feedback_ejemplo (n : nat) : list FilaFeedback :=
  map (fun i => {| f_id := Z.of_nat (S i); f_alerta_id := 1;
                   f_feedback := if Nat.even i then "bien" else "mal" |})
      (seq 0 n).

Definition bd_con_feedback (n : nat) : BD :=
  {| historico := [fila_historico_ejemplo]; sec_historico := 1;
     alertas_emitidas := [fila_alerta_ejemplo]; sec_alertas := 1;
     feedback_usuario := feedback_ejemplo n; sec_feedback := n;
     fallos_bd := [] |}.

Definition mundo_con_feedback (n : nat) (fallos : list (option string)) : Mundo :=
  {| bd := bd_con_feedback n;
     disco := {| modelo_file := Ausente; fallos_disco := fallos |};
     registro := []; traza := [] |}.

(** A stand-in for scikit-learn, the simplest that returns at every call:
    the first quarter of the rows is held out, and the fit gives a constant
    classifier. *)
Definition sklearn_ejemplo : Sklearn :=
  {| train_test_split := fun X y _ _ _ =>
       let k := (length X / 4)%nat in
       Vuelve (drop k X, take k X, drop k y, take k y);
     RandomForestClassifier_fit := fun _ _ _ _ _ =>
       Vuelve (modelo_constante 0 (1 # 2));
     classification_report := fun _ _ _ => Vuelve "precision recall f1-score" |}.

Definition dia_ejemplo (d : Z) (lluvia : value) (clima : string)
  : gmap string value :=
  <["fecha" := VFecha {| anio := 2024; mes := 5; dia := d |}]>
    (<["lluvia" := lluvia]> (<["clima" := VStr clima]> ∅)).

Definition pronostico_ejemplo : list (gmap string value) :=
  [dia_ejemplo 2 (VFloat (125 # 10)) "Lluvia moderada";
   dia_ejemplo 3 (VInt 3) "Nubes";
   dia_ejemplo 4 (VInt 50) "Lluvia intensa"].

Definition tipos_registrados (w : Mundo) : list string :=
  map a_tipo_alerta (alertas_emitidas (bd w)).

(** A library whose report raises, the split and the fit being those of
    [sklearn_ejemplo]. *)
Definition sklearn_sin_reporte : Sklearn :=
  {| train_test_split := train_test_split sklearn_ejemplo;
     RandomForestClassifier_fit := RandomForestClassifier_fit sklearn_ejemplo;
     classification_report := fun _ _ _ =>
       Lanza {| clase := ValueError; texto := "classification_report" |} |}.


(** * Properties *)

(** ** The monad *)

Lemma nuevos_app w w' l : traza w' = traza w ++ l -> nuevos w w' = l.
Proof. intros E. unfold nuevos. rewrite E. apply drop_app_length. Qed.

Lemma nuevos_nil w w' : traza w' = traza w -> nuevos w w' = [].
Proof. intros E. apply nuevos_app. rewrite E. symmetry. apply app_nil_r. Qed.

Lemma pura_lift {A} (r : Resultado A) : pura (lift r).
Proof. intros w. exists r. reflexivity. Qed.

Lemma pura_ret {A} (a : A) : pura (ret a).
Proof. intros w. eexists. reflexivity. Qed.

Lemma pura_bind {A B} (c : M A) (k : A -> M B) :
  pura c -> (forall a, pura (k a)) -> pura (bind c k).
Proof.
  intros Hc Hk w. unfold bind. destruct (Hc w) as [r ->].
  destruct r as [a|e]; [apply Hk | eexists; reflexivity].
Qed.

Lemma pura_getitem d k : pura (getitem d k).
Proof. apply pura_lift. Qed.

Lemma pura_ge a b : pura (ge a b).
Proof. apply pura_lift. Qed.

Lemma pura_le a b : pura (le a b).
Proof. apply pura_lift. Qed.

Lemma pura_py_or x y : pura x -> pura y -> pura (py_or x y).
Proof.
  intros Hx Hy. unfold py_or. apply pura_bind; [exact Hx|].
  intros [|]; [apply pura_ret | exact Hy].
Qed.

Create HintDb pura.
#[local] Hint Resolve pura_lift pura_ret pura_getitem pura_ge pura_le : pura.

Lemma pura_evalua_umbrales self datos : pura (evalua_umbrales self datos).
Proof.
  unfold evalua_umbrales.
  repeat first [ apply pura_getitem | apply pura_ge | apply pura_le
               | apply pura_py_or | apply pura_bind | intro ].
Qed.

Lemma solo_registra_pura {A} (c : M A) : pura c -> solo_registra c.
Proof. intros H w. destruct (H w) as [r ->]. auto. Qed.

Lemma solo_registra_log n msg : solo_registra (log n msg).
Proof. intros w. auto. Qed.

Lemma solo_registra_bind {A B} (c : M A) (k : A -> M B) :
  solo_registra c -> (forall a, solo_registra (k a)) -> solo_registra (bind c k).
Proof.
  intros Hc Hk w. unfold bind. specialize (Hc w).
  destruct (c w) as [w1 [a|e]]; simpl in *.
  - destruct (Hk a w1) as (-> & -> & ->). exact Hc.
  - exact Hc.
Qed.

Lemma solo_registra_try {A} (c : M A) (h : Excepcion -> M A) :
  solo_registra c -> (forall e, solo_registra (h e)) -> solo_registra (try_except c h).
Proof.
  intros Hc Hh w. unfold try_except. specialize (Hc w).
  destruct (c w) as [w1 [a|e]]; simpl in *.
  - exact Hc.
  - destruct (Hh e w1) as (-> & -> & ->). exact Hc.
Qed.

Lemma solo_registra_item {A} (l : list A) i : solo_registra (item l i).
Proof. intros w. unfold item. destruct (l !! i); auto. Qed.

Lemma solo_registra_predecir pr t h l : solo_registra (predecir pr t h l).
Proof.
  unfold predecir. destruct (modelo pr) as [m|].
  - apply solo_registra_try.
    + repeat (apply solo_registra_bind; [|intro]);
        try apply solo_registra_item; try apply solo_registra_log;
        apply solo_registra_pura; auto with pura.
    + intro e. apply solo_registra_bind; [apply solo_registra_log|].
      intro. apply solo_registra_pura; auto with pura.
  - apply solo_registra_bind; [apply solo_registra_log|].
    intro. apply solo_registra_pura; auto with pura.
Qed.

Lemma solo_registra_evalua_ia self datos : solo_registra (evalua_ia self datos).
Proof.
  unfold evalua_ia. destruct (predictor self) as [p|].
  - destruct (modelo p).
    + repeat (apply solo_registra_bind;
              [first [apply solo_registra_predecir
                     | apply solo_registra_pura; auto with pura] | intro]).
      destruct a2 as [[c q]|].
      * apply solo_registra_bind; [apply solo_registra_pura; auto with pura|].
        intro. apply solo_registra_pura; auto with pura.
      * apply solo_registra_pura; auto with pura.
    + apply solo_registra_pura; auto with pura.
  - intros w. auto.
Qed.

Lemma solo_registra_decision self datos : solo_registra (decision self datos).
Proof.
  unfold decision.
  apply solo_registra_bind;
    [apply solo_registra_pura, pura_evalua_umbrales | intro ru].
  apply solo_registra_bind; [apply solo_registra_evalua_ia | intros [ria p]].
  apply solo_registra_pura; auto with pura.
Qed.

(** ** Strings *)

Lemma app_cons a s t : String a s +:+ t = String a (s +:+ t).
Proof. reflexivity. Qed.

Lemma app_vacia_r s : s +:+ "" = s.
Proof. induction s as [|a s IH]; [reflexivity|]. rewrite app_cons, IH. reflexivity. Qed.

Lemma app_asoc s t u : (s +:+ t) +:+ u = s +:+ (t +:+ u).
Proof.
  induction s as [|a s IH]; [reflexivity|]. rewrite !app_cons, IH. reflexivity.
Qed.

Lemma contiene_refl s : contiene s s.
Proof. exists "", "". rewrite app_vacia_r. reflexivity. Qed.

Lemma contiene_izq a s sub : contiene s sub -> contiene (a +:+ s) sub.
Proof.
  intros (pre & post & ->). exists (a +:+ pre), post.
  rewrite app_asoc. reflexivity.
Qed.

Lemma contiene_der s b sub : contiene s sub -> contiene (s +:+ b) sub.
Proof.
  intros (pre & post & ->). exists pre, (post +:+ b).
  rewrite !app_asoc. reflexivity.
Qed.

Lemma contiene_prefijo sub b : contiene (sub +:+ b) sub.
Proof. apply contiene_der, contiene_refl. Qed.

(** ** The inference adapter *)

Lemma predecir_valor pr m t h l w :
  modelo pr = Some m ->
  exists r, (predecir pr t h l w).2 = Vuelve r
            /\ snd <$> r = prob_modelo m t h l.
Proof.
  intros Hm. unfold predecir, prob_modelo. rewrite Hm.
  unfold try_except, bind, lift, item.
  destruct (predict m [[t; h; l]]) as [cs|e]; simpl.
  2: { eexists; split; reflexivity. }
  destruct cs as [|c cs]; simpl.
  { eexists; split; reflexivity. }
  destruct (predict_proba m [[t; h; l]]) as [ps|e]; simpl.
  2: { eexists; split; reflexivity. }
  destruct ps as [|fila ps]; simpl.
  { eexists; split; reflexivity. }
  destruct (fila !! 1%nat) as [p|] eqn:E; simpl.
  - eexists; split; reflexivity.
  - eexists; split; reflexivity.
Qed.

(** ** The decision *)

Lemma getitem_some d k v w : d !! k = Some v -> getitem d k w = (w, Vuelve v).
Proof. intros H. unfold getitem, lift. rewrite H. reflexivity. Qed.

Lemma ge_num a b w :
  is_num a = true -> is_num b = true ->
  ge a b w = (w, Vuelve (Qle_bool (to_Q b) (to_Q a))).
Proof. intros Ha Hb. unfold ge, ge_r, lift. rewrite Ha, Hb. reflexivity. Qed.

Lemma le_num a b w :
  is_num a = true -> is_num b = true ->
  le a b w = (w, Vuelve (Qle_bool (to_Q a) (to_Q b))).
Proof. intros Ha Hb. unfold le, le_r, lift. rewrite Ha, Hb. reflexivity. Qed.

Lemma evalua_umbrales_valor self datos t h l tmax tmin hlim llim w :
  lectura_numerica datos t h l ->
  limites_numericos (umbrales self) tmax tmin hlim llim ->
  evalua_umbrales self datos w =
    (w, Vuelve (Qle_bool (to_Q tmax) (to_Q t) || Qle_bool (to_Q t) (to_Q tmin)
                || Qle_bool (to_Q hlim) (to_Q h) || Qle_bool (to_Q llim) (to_Q l))).
Proof.
  intros [] []. unfold evalua_umbrales, py_or, bind.
  repeat (first [ erewrite getitem_some by eassumption
                | rewrite ge_num by assumption
                | rewrite le_num by assumption ]; cbv beta iota).
  destruct (Qle_bool (to_Q tmax) (to_Q t)); [reflexivity|].
  repeat (first [ erewrite getitem_some by eassumption
                | rewrite ge_num by assumption
                | rewrite le_num by assumption ]; cbv beta iota).
  destruct (Qle_bool (to_Q t) (to_Q tmin)); [reflexivity|].
  repeat (first [ erewrite getitem_some by eassumption
                | rewrite ge_num by assumption
                | rewrite le_num by assumption ]; cbv beta iota).
  destruct (Qle_bool (to_Q hlim) (to_Q h)); [reflexivity|].
  repeat (first [ erewrite getitem_some by eassumption
                | rewrite ge_num by assumption
                | rewrite le_num by assumption ]; cbv beta iota).
  reflexivity.
Qed.

Lemma get_umbral_ia u : get u "umbral_ia_probabilidad" (VFloat (3 # 4)) = umbral_ia_de u.
Proof. unfold get, umbral_ia_de. destruct (u !! "umbral_ia_probabilidad"); reflexivity. Qed.

(** What [evalua_ia] returns on a numeric reading: the model fires exactly
    when it gives a probability that reaches the bound. *)
Lemma evalua_ia_valor self pr datos t h l w :
  lectura_numerica datos t h l ->
  is_num (umbral_ia_de (umbrales self)) = true ->
  predictor self = Some pr ->
  exists ria p,
    (evalua_ia self datos w).2 = Vuelve (ria, p)
    /\ match modelo pr with
       | None => ria = false /\ p = 0%Q
       | Some m =>
           match prob_modelo m t h l with
           | Some p' => p = p'
                        /\ ria = Qle_bool (to_Q (umbral_ia_de (umbrales self))) p'
           | None => ria = false /\ p = 0%Q
           end
       end.
Proof.
  intros [] Hu Hp. unfold evalua_ia. rewrite Hp.
  destruct (modelo pr) as [m|] eqn:Hm.
  - unfold bind.
    repeat (erewrite getitem_some by eassumption; cbv beta iota).
    destruct (predecir_valor pr m t h l w Hm) as (r & Hr & Hv).
    destruct (predecir pr t h l w) as [w1 r1]. simpl in Hr. subst r1.
    destruct r as [[c q]|]; simpl in Hv.
    + rewrite get_umbral_ia. rewrite ge_num by (assumption || reflexivity).
      simpl. rewrite <- Hv. eauto.
    + rewrite <- Hv. simpl. eauto.
  - simpl. eauto.
Qed.

(** ** Persistence and delivery *)

Lemma construir_mensaje_valor datos ts t h l c ru ria p :
  lectura_completa datos ts t h l c ->
  exists msg,
    (forall w, _construir_mensaje_alerta datos ru ria p w = (w, Vuelve msg))
    /\ contiene msg ("Motivo: *" +:+ motivo_de ru ria +:+ "*")
    /\ contiene msg ("Temperatura: *" +:+ py_str t +:+ "°C*")
    /\ contiene msg ("Humedad: *" +:+ py_str h +:+ "%*")
    /\ contiene msg ("Lluvia: *" +:+ py_str l +:+ " mm*")
    /\ contiene msg ("(Prob. de Riesgo): *" +:+ porcentaje 1 p +:+ "*").
Proof.
  intros []. eexists. split.
  { intros w. unfold _construir_mensaje_alerta, bind.
    repeat (erewrite getitem_some by eassumption; cbv beta iota).
    reflexivity. }
  assert (Hm : join " y " ((if ru then ["Umbrales Superados"] else [])
                             ++ (if ria then ["Predicción IA"] else []))
               = motivo_de ru ria) by (destruct ru, ria; reflexivity).
  rewrite Hm. clear Hm.
  repeat split.
  - apply contiene_izq, contiene_izq.
    exists "", (nl +:+ nl
       +:+ "🌡️ Temperatura: *" +:+ py_str t +:+ "°C*" +:+ nl
       +:+ "💧 Humedad: *" +:+ py_str h +:+ "%*" +:+ nl
       +:+ "🌧️ Lluvia: *" +:+ py_str l +:+ " mm*" +:+ nl +:+ nl
       +:+ "🤖 Análisis IA (Prob. de Riesgo): *" +:+ porcentaje 1 p +:+ "*").
    rewrite !app_asoc. reflexivity.
  - do 7 apply contiene_izq.
    exists "🌡️ ", (nl
       +:+ "💧 Humedad: *" +:+ py_str h +:+ "%*" +:+ nl
       +:+ "🌧️ Lluvia: *" +:+ py_str l +:+ " mm*" +:+ nl +:+ nl
       +:+ "🤖 Análisis IA (Prob. de Riesgo): *" +:+ porcentaje 1 p +:+ "*").
    rewrite !app_asoc. reflexivity.
  - do 11 apply contiene_izq.
    exists "💧 ", (nl
       +:+ "🌧️ Lluvia: *" +:+ py_str l +:+ " mm*" +:+ nl +:+ nl
       +:+ "🤖 Análisis IA (Prob. de Riesgo): *" +:+ porcentaje 1 p +:+ "*").
    rewrite !app_asoc. reflexivity.
  - do 15 apply contiene_izq.
    exists "🌧️ ", (nl +:+ nl
       +:+ "🤖 Análisis IA (Prob. de Riesgo): *" +:+ porcentaje 1 p +:+ "*").
    rewrite !app_asoc. reflexivity.
  - do 20 apply contiene_izq.
    exists "🤖 Análisis IA ", "".
    rewrite !app_asoc, app_vacia_r. reflexivity.
Qed.

Lemma truthy_id_nuevo n : truthy_id (Some (Z.of_nat (S n))) = Some (Z.of_nat (S n)).
Proof. reflexivity. Qed.

Lemma tipo_de_riesgo ru ria :
  "riesgo_" +:+ (if ria && negb ru then "ia" else "umbral") = tipo_de ru ria.
Proof. destruct ru, ria; reflexivity. Qed.

(** What [emite_alerta] does on a complete reading, by the fate of the two
    insertions. *)
Lemma emite_alerta_efectos datos ts t h l c ru ria p msg w :
  lectura_completa datos ts t h l c ->
  (forall w0, _construir_mensaje_alerta datos ru ria p w0 = (w0, Vuelve msg)) ->
  let cid := Z.of_nat (S (sec_historico (bd w))) in
  let aid := Z.of_nat (S (sec_alertas (bd w))) in
  let v := get datos "viento_kmh" (VInt 0) in
  let fila_h := {| h_id := cid; h_timestamp := ts; h_temperatura := t;
                   h_humedad := h; h_lluvia := l; h_clima := c;
                   h_viento_kmh := v |} in
  let fila_a := {| a_id := aid; a_tipo_alerta := tipo_de ru ria;
                   a_descripcion := msg; a_clima_id := cid |} in
  exists w',
    emite_alerta datos ru ria p w = (w', Vuelve tt)
    /\ disco w' = disco w
    /\ match fallo_en (fallos_bd (bd w)) 0, fallo_en (fallos_bd (bd w)) 1 with
       | Some _, _ =>
           traza w' = traza w ++ [EvInsertHistoricoClima ts t h l c v None]
           /\ historico (bd w') = historico (bd w)
           /\ alertas_emitidas (bd w') = alertas_emitidas (bd w)
       | None, Some _ =>
           traza w' = traza w ++
             [EvInsertHistoricoClima ts t h l c v (Some cid);
              EvInsertAlertaEmitida (tipo_de ru ria) msg cid None]
           /\ historico (bd w') = historico (bd w) ++ [fila_h]
           /\ alertas_emitidas (bd w') = alertas_emitidas (bd w)
       | None, None =>
           traza w' = traza w ++
             [EvInsertHistoricoClima ts t h l c v (Some cid);
              EvInsertAlertaEmitida (tipo_de ru ria) msg cid (Some aid);
              EvEnviarAlertaGeneral msg aid]
           /\ historico (bd w') = historico (bd w) ++ [fila_h]
           /\ alertas_emitidas (bd w') = alertas_emitidas (bd w) ++ [fila_a]
       end.
Proof.
  intros [] Hmsg. cbv zeta.
  unfold emite_alerta. unfold bind at 1. rewrite Hmsg.
  unfold bind.
  repeat (erewrite getitem_some by eassumption; cbv beta iota).
  rewrite <- tipo_de_riesgo.
  unfold insert_historico_clima, insert_alerta_emitida, enviar_alerta_general,
    _execute_write_query, siguiente_fallo, fallo_en, bind, ret, emite, log.
  destruct w as [b d r tr]. destruct b as [hs sh als sa fbs sf fs]. simpl.
  destruct fs as [|[e|] fs]; simpl.
  - eexists. split; [reflexivity|]. split; [reflexivity|].
    rewrite <- !app_assoc. simpl. auto.
  - eexists. split; [reflexivity|]. split; [reflexivity|]. auto.
  - destruct fs as [|[e|] fs]; simpl.
    + eexists. split; [reflexivity|]. split; [reflexivity|].
      rewrite <- !app_assoc. simpl. auto.
    + eexists. split; [reflexivity|]. split; [reflexivity|].
      rewrite <- !app_assoc. simpl. auto.
    + eexists. split; [reflexivity|]. split; [reflexivity|].
      rewrite <- !app_assoc. simpl. auto.
Qed.



Lemma decision_marco self datos w w1 r :
  decision self datos w = (w1, r) ->
  bd w1 = bd w /\ disco w1 = disco w /\ traza w1 = traza w.
Proof.
  intros H. pose proof (solo_registra_decision self datos w) as Hs.
  rewrite H in Hs. exact Hs.
Qed.

Lemma analizar_desde_decision self datos w w1 ru ria p :
  decision self datos w = (w1, Vuelve (ru, ria, p)) ->
  analizar self datos w =
    try_except
      (if ru || ria then emite_alerta datos ru ria p
       else log INFO "Condiciones normales. No se requiere alerta.")
      maneja w1.
Proof.
  intros H. unfold analizar, analizar_cuerpo, try_except, bind. rewrite H.
  reflexivity.
Qed.

Lemma lectura_completa_dec datos :
  (exists ts t h l c, lectura_completa datos ts t h l c)
  \/ (forall ts t h l c, ~ lectura_completa datos ts t h l c).
Proof.
  destruct (datos !! "timestamp") as [ts|] eqn:E1;
    [|right; intros ????? []; congruence].
  destruct (datos !! "temperatura") as [t|] eqn:E2;
    [|right; intros ????? []; congruence].
  destruct (datos !! "humedad") as [h|] eqn:E3;
    [|right; intros ????? []; congruence].
  destruct (datos !! "lluvia") as [l|] eqn:E4;
    [|right; intros ????? []; congruence].
  destruct (datos !! "clima") as [c|] eqn:E5;
    [|right; intros ????? []; congruence].
  left. exists ts, t, h, l, c. split; assumption.
Qed.

(** On a reading that lacks a field, [emite_alerta] raises before it calls
    any collaborator. *)
Lemma emite_alerta_incompleta datos ru ria p w :
  (forall ts t h l c, ~ lectura_completa datos ts t h l c) ->
  exists e, emite_alerta datos ru ria p w = (w, Lanza e).
Proof.
  intros Hno. unfold emite_alerta, _construir_mensaje_alerta, bind, getitem, lift, ret.
  destruct (datos !! "temperatura") as [t|] eqn:E2; [|eexists; reflexivity].
  destruct (datos !! "humedad") as [h|] eqn:E3; [|eexists; reflexivity].
  destruct (datos !! "lluvia") as [l|] eqn:E4; [|eexists; reflexivity].
  destruct (datos !! "timestamp") as [ts|] eqn:E1; [|eexists; reflexivity].
  destruct (datos !! "clima") as [c|] eqn:E5; [|eexists; reflexivity].
  exfalso. apply (Hno ts t h l c). split; assumption.
Qed.

Lemma maneja_efectos e w :
  maneja e w =
    (con_traza (traza w ++ [EvSendError "analizador_hibrido" (str_exc e)])
       (con_registro
          (registro w ++
             [(CRITICAL, "Error crítico en el proceso de análisis híbrido: "
                           +:+ str_exc e)]) w),
     Vuelve tt).
Proof. reflexivity. Qed.

(** ** The decision engine *)

Lemma analizar_alerta self datos ts t h l c w w1 ru ria p :
  lectura_completa datos ts t h l c ->
  decision self datos w = (w1, Vuelve (ru, ria, p)) ->
  (decide_alertar self datos w <-> ru || ria = true).
Proof.
  intros Hc Hd. unfold decide_alertar.
  rewrite (analizar_desde_decision _ _ _ _ _ _ _ Hd).
  destruct (decision_marco _ _ _ _ _ Hd) as (Hb & _ & Ht).
  destruct (ru || ria) eqn:E.
  - destruct (construir_mensaje_valor datos ts t h l c ru ria p Hc)
      as (msg & Hmsg & _).
    destruct (emite_alerta_efectos datos ts t h l c ru ria p msg w1 Hc Hmsg)
      as (w' & He & _ & Hcasos).
    unfold try_except. rewrite He. simpl.
    split; [reflexivity|]. intros _.
    destruct (fallo_en (fallos_bd (bd w1)) 0);
      [|destruct (fallo_en (fallos_bd (bd w1)) 1)];
      destruct Hcasos as (Htr & _); rewrite Ht in Htr;
      rewrite (nuevos_app _ _ _ Htr); repeat eexists.
  - unfold try_except, log. simpl.
    split; [|discriminate].
    intros (? & ? & ? & ? & ? & ? & ? & ? & H).
    rewrite nuevos_nil in H by (simpl; congruence). discriminate.
Qed.

Lemma decision_valor self pr datos t h l tmax tmin hlim llim w :
  lectura_numerica datos t h l ->
  limites_numericos (umbrales self) tmax tmin hlim llim ->
  is_num (umbral_ia_de (umbrales self)) = true ->
  predictor self = Some pr ->
  exists w1 ru ria p,
    decision self datos w = (w1, Vuelve (ru, ria, p))
    /\ ru = (Qle_bool (to_Q tmax) (to_Q t) || Qle_bool (to_Q t) (to_Q tmin)
             || Qle_bool (to_Q hlim) (to_Q h) || Qle_bool (to_Q llim) (to_Q l))
    /\ match modelo pr with
       | None => ria = false /\ p = 0%Q
       | Some m =>
           match prob_modelo m t h l with
           | Some p' => p = p'
                        /\ ria = Qle_bool (to_Q (umbral_ia_de (umbrales self))) p'
           | None => ria = false /\ p = 0%Q
           end
       end.
Proof.
  intros Hl Hu Hia Hp.
  destruct (evalua_ia_valor self pr datos t h l w Hl Hia Hp) as (ria & p & Hr & Hv).
  unfold decision, bind.
  rewrite (evalua_umbrales_valor self datos t h l tmax tmin hlim llim w Hl Hu).
  destruct (evalua_ia self datos w) as [w1 r]. simpl in Hr. subst r.
  do 4 eexists. split; [reflexivity|]. split; [reflexivity | exact Hv].
Qed.

(** C1. On a reading and a threshold snapshot whose numeric fields are
    numbers, [analizar] decides to alert exactly when one of the four bounds
    is reached (temperature >= maximum, temperature <= minimum, humidity >=
    limit, rain >= limit, all inclusive) or a model is loaded and the risk
    probability it gives reaches [umbral_ia_probabilidad], 0.75 when the
    snapshot does not set it; without a model the rules alone decide. *)
Theorem decision_final self pr datos ts t h l c tmax tmin hlim llim w :
  lectura_completa datos ts t h l c ->
  is_num t = true -> is_num h = true -> is_num l = true ->
  limites_numericos (umbrales self) tmax tmin hlim llim ->
  is_num (umbral_ia_de (umbrales self)) = true ->
  predictor self = Some pr ->
  let regla :=
    (to_Q tmax <= to_Q t \/ to_Q t <= to_Q tmin
     \/ to_Q hlim <= to_Q h \/ to_Q llim <= to_Q l)%Q in
  let ia :=
    exists m p, modelo pr = Some m /\ prob_modelo m t h l = Some p
                /\ (to_Q (umbral_ia_de (umbrales self)) <= p)%Q in
  (decide_alertar self datos w <-> regla \/ ia)
  /\ (modelo pr = None -> (decide_alertar self datos w <-> regla)).
Proof.
  intros Hc Ht Hh Hl Hu Hia Hp regla ia.
  assert (Hn : lectura_numerica datos t h l)
    by (destruct Hc; split; assumption).
  destruct (decision_valor self pr datos t h l tmax tmin hlim llim w Hn Hu Hia Hp)
    as (w1 & ru & ria & p & Hd & Hru & Hria).
  pose proof (analizar_alerta self datos ts t h l c w w1 ru ria p Hc Hd) as Ha.
  assert (Hregla : ru = true <-> regla).
  { subst ru regla. rewrite !orb_true_iff, !Qle_bool_iff. tauto. }
  assert (Hmod : ria = true <-> ia).
  { subst ia. destruct (modelo pr) as [m|].
    - destruct (prob_modelo m t h l) as [p'|] eqn:E.
      + destruct Hria as [-> ->]. rewrite Qle_bool_iff. split.
        * intros H. exists m, p'. auto.
        * intros (m' & q & Hm' & Hq & Hle). injection Hm' as <-.
          rewrite E in Hq. injection Hq as <-. exact Hle.
      + destruct Hria as [-> _]. split; [discriminate|].
        intros (m' & q & Hm' & Hq & _). injection Hm' as <-.
        rewrite E in Hq. discriminate.
    - destruct Hria as [-> _]. split; [discriminate|].
      intros (m' & q & Hm' & _). discriminate. }
  split.
  - rewrite Ha, orb_true_iff. tauto.
  - intros Hnone. rewrite Ha, orb_true_iff.
    assert (~ ia) by (intros (m & q & Hm & _); congruence). tauto.
Qed.

Lemma decision_final_witness :
  decide_alertar sin_modelo (lectura (VInt 38) (VInt 50) (VInt 0)) mundo_inicial
  <-> ((inject_Z 35 <= inject_Z 38 \/ inject_Z 38 <= inject_Z 5
        \/ inject_Z 90 <= inject_Z 50 \/ inject_Z 10 <= inject_Z 0)%Q
       \/ exists m p, None = Some m
                      /\ prob_modelo m (VInt 38) (VInt 50) (VInt 0) = Some p
                      /\ (3 # 4 <= p)%Q).
Proof.
  apply (decision_final sin_modelo {| modelo := None |}
           (lectura (VInt 38) (VInt 50) (VInt 0))
           (VStr "2024-05-01 12:00:00") (VInt 38) (VInt 50) (VInt 0)
           (VStr "Cielo claro") (VInt 35) (VInt 5) (VInt 90) (VInt 10)
           mundo_inicial).
  - split; vm_compute; reflexivity.
  - reflexivity.
  - reflexivity.
  - reflexivity.
  - split; vm_compute; reflexivity.
  - reflexivity.
  - reflexivity.
Defined.

Lemma analizar_alerta_efectos self datos ts t h l c w w1 ru ria p :
  decision self datos w = (w1, Vuelve (ru, ria, p)) ->
  ru || ria = true ->
  lectura_completa datos ts t h l c ->
  exists msg,
    (forall w0, _construir_mensaje_alerta datos ru ria p w0 = (w0, Vuelve msg))
    /\ (analizar self datos w).2 = Vuelve tt
    /\ efectos_alerta datos ts t h l c (tipo_de ru ria) msg w
         (analizar self datos w).1.
Proof.
  intros Hd Hr Hc.
  destruct (construir_mensaje_valor datos ts t h l c ru ria p Hc)
    as (msg & Hmsg & _).
  exists msg. split; [exact Hmsg|].
  rewrite (analizar_desde_decision _ _ _ _ _ _ _ Hd), Hr.
  destruct (decision_marco _ _ _ _ _ Hd) as (Hb & _ & Ht).
  destruct (emite_alerta_efectos datos ts t h l c ru ria p msg w1 Hc Hmsg)
    as (w' & He & _ & Hcasos).
  unfold try_except. rewrite He. simpl. split; [reflexivity|].
  unfold efectos_alerta. rewrite Hb, Ht in Hcasos.
  destruct (fallo_en (fallos_bd (bd w)) 0);
    [|destruct (fallo_en (fallos_bd (bd w)) 1)];
    destruct Hcasos as (Htr & Hh & Ha);
    (split; [apply nuevos_app; exact Htr | split; assumption]).
Qed.

Lemma analizar_alerta_incompleta self datos w w1 ru ria p :
  decision self datos w = (w1, Vuelve (ru, ria, p)) ->
  ru || ria = true ->
  (forall ts t h l c, ~ lectura_completa datos ts t h l c) ->
  exists e,
    nuevos w (analizar self datos w).1
    = [EvSendError "analizador_hibrido" (str_exc e)]
    /\ bd (analizar self datos w).1 = bd w.
Proof.
  intros Hd Hr Hno.
  rewrite (analizar_desde_decision _ _ _ _ _ _ _ Hd), Hr.
  destruct (decision_marco _ _ _ _ _ Hd) as (Hb & _ & Ht).
  destruct (emite_alerta_incompleta datos ru ria p w1 Hno) as [e He].
  exists e. unfold try_except. rewrite He, maneja_efectos. simpl.
  split; [|exact Hb]. apply nuevos_app. simpl. rewrite Ht. reflexivity.
Qed.

Lemma analizar_sin_alerta self datos w w1 ru ria p :
  decision self datos w = (w1, Vuelve (ru, ria, p)) ->
  ru || ria = false ->
  nuevos w (analizar self datos w).1 = []
  /\ bd (analizar self datos w).1 = bd w
  /\ (analizar self datos w).2 = Vuelve tt.
Proof.
  intros Hd Hr.
  rewrite (analizar_desde_decision _ _ _ _ _ _ _ Hd), Hr.
  destruct (decision_marco _ _ _ _ _ Hd) as (Hb & _ & Ht).
  unfold try_except, log. simpl.
  split; [apply nuevos_nil; simpl; exact Ht | split; [exact Hb | reflexivity]].
Qed.

Lemma analizar_decision_lanza self datos w w1 e :
  decision self datos w = (w1, Lanza e) ->
  nuevos w (analizar self datos w).1
  = [EvSendError "analizador_hibrido" (str_exc e)]
  /\ bd (analizar self datos w).1 = bd w.
Proof.
  intros Hd. destruct (decision_marco _ _ _ _ _ Hd) as (Hb & _ & Ht).
  unfold analizar, analizar_cuerpo, try_except, bind. rewrite Hd.
  change (maneja e w1).1 with
    (con_traza (traza w1 ++ [EvSendError "analizador_hibrido" (str_exc e)])
       (con_registro
          (registro w1 ++
             [(CRITICAL, "Error crítico en el proceso de análisis híbrido: "
                           +:+ str_exc e)]) w1)).
  simpl. split; [|exact Hb]. apply nuevos_app. simpl. rewrite Ht. reflexivity.
Qed.

(** Every alert that [analizar] files comes from a decision that returned,
    on a complete reading, with that decision's kind and message. *)
Lemma alerta_registrada self datos w tipo msg cid res :
  In (EvInsertAlertaEmitida tipo msg cid res) (nuevos w (analizar self datos w).1) ->
  exists w1 ru ria p ts t h l c,
    decision self datos w = (w1, Vuelve (ru, ria, p))
    /\ ru || ria = true
    /\ lectura_completa datos ts t h l c
    /\ tipo = tipo_de ru ria
    /\ (forall w0, _construir_mensaje_alerta datos ru ria p w0 = (w0, Vuelve msg)).
Proof.
  intros Hin.
  destruct (decision self datos w) as [w1 [[[ru ria] p]|e]] eqn:Hd.
  2: { destruct (analizar_decision_lanza _ _ _ _ _ Hd) as [Hn _].
       rewrite Hn in Hin. destruct Hin as [H|[]]. discriminate. }
  destruct (ru || ria) eqn:Hr.
  2: { destruct (analizar_sin_alerta _ _ _ _ _ _ _ Hd Hr) as [Hn _].
       rewrite Hn in Hin. destruct Hin. }
  destruct (lectura_completa_dec datos) as [(ts & t & h & l & c & Hc)|Hno].
  2: { destruct (analizar_alerta_incompleta _ _ _ _ _ _ _ Hd Hr Hno)
         as (e & Hn & _).
       rewrite Hn in Hin. destruct Hin as [H|[]]. discriminate. }
  destruct (analizar_alerta_efectos _ _ _ _ _ _ _ _ _ _ _ _ Hd Hr Hc)
    as (msg' & Hmsg & _ & Hef).
  exists w1, ru, ria, p, ts, t, h, l, c.
  split; [reflexivity|]. split; [exact Hr|]. split; [exact Hc|].
  unfold efectos_alerta in Hef.
  destruct (fallo_en (fallos_bd (bd w)) 0);
    [|destruct (fallo_en (fallos_bd (bd w)) 1)];
    destruct Hef as (Hn & _); rewrite Hn in Hin; simpl in Hin;
    repeat (destruct Hin as [Hin|Hin]; try discriminate; try contradiction);
    injection Hin as <- <- _ _; (split; [reflexivity | exact Hmsg]).
Qed.

(** C2, as corrected. Whenever [analizar] files an alert, its kind is
    ["riesgo_ia"] exactly when the model fired and the rules did not, and
    ["riesgo_umbral"] exactly when the rules fired, with or without the
    model: the rules take the label when both fire. *)
Theorem tipo_de_alerta self datos w tipo msg cid res :
  In (EvInsertAlertaEmitida tipo msg cid res)
     (nuevos w (analizar self datos w).1) ->
  exists w1 ru ria p,
    decision self datos w = (w1, Vuelve (ru, ria, p))
    /\ ru || ria = true
    /\ (tipo = "riesgo_ia" <-> ria = true /\ ru = false)
    /\ (tipo = "riesgo_umbral" <-> ru = true).
Proof.
  intros Hin.
  destruct (alerta_registrada _ _ _ _ _ _ _ Hin)
    as (w1 & ru & ria & p & _ & _ & _ & _ & _ & Hd & Hr & _ & -> & _).
  exists w1, ru, ria, p. split; [exact Hd|]. split; [exact Hr|].
  destruct ru, ria; try discriminate; unfold tipo_de; simpl;
    (split; split; intros H; try discriminate; try reflexivity; try tauto).
  all: destruct H; discriminate.
Qed.

Lemma tipo_de_alerta_witness :
  exists w1 ru ria p,
    decision (con_modelo (9 # 10)) (lectura (VInt 20) (VInt 40) (VInt 0))
      mundo_inicial = (w1, Vuelve (ru, ria, p))
    /\ ru || ria = true
    /\ ("riesgo_ia" = "riesgo_ia" <-> ria = true /\ ru = false)
    /\ ("riesgo_ia" = "riesgo_umbral" <-> ru = true).
Proof.
  apply (tipo_de_alerta (con_modelo (9 # 10))
           (lectura (VInt 20) (VInt 40) (VInt 0)) mundo_inicial "riesgo_ia"
           ("⚠️ *ALERTA CLIMÁTICA DETECTADA*" +:+ nl
            +:+ "Motivo: *Predicción IA*" +:+ nl +:+ nl
            +:+ "🌡️ Temperatura: *20°C*" +:+ nl
            +:+ "💧 Humedad: *40%*" +:+ nl
            +:+ "🌧️ Lluvia: *0 mm*" +:+ nl +:+ nl
            +:+ "🤖 Análisis IA (Prob. de Riesgo): *90.0%*")
           1 (Some 1)).
  vm_compute. right. left. reflexivity.
Defined.

(** The kind filed for the reading of 38 degrees under a maximum of 35,
    without a model, is ["riesgo_umbral"], which is not ["risk_threshold"]. *)
Lemma tipo_de_alerta_contraejemplo :
  (decision sin_modelo (lectura (VInt 38) (VInt 50) (VInt 0)) mundo_inicial).2
  = Vuelve (true, false, 0%Q)
  /\ map a_tipo_alerta
       (alertas_emitidas
          (bd (analizar sin_modelo (lectura (VInt 38) (VInt 50) (VInt 0))
                 mundo_inicial).1))
     = ["riesgo_umbral"]
  /\ "riesgo_umbral" <> "risk_threshold".
Proof.
  split; [vm_compute; reflexivity|]. split; [vm_compute; reflexivity|].
  discriminate.
Qed.







(** ** The forecast evaluator *)

Lemma analiza_dia_casos self dia w :
  bd (analiza_dia self dia w).1 = bd w
  /\ (traza (analiza_dia self dia w).1 = traza w
      \/ exists ev, traza (analiza_dia self dia w).1 = traza w ++ [ev]
                    /\ aviso_de self dia ev).
Proof.
  unfold analiza_dia, bind, getitem, lift, ge.
  destruct (dia !! "fecha") as [fv|] eqn:Ef; simpl; [|auto].
  destruct (umbrales self !! "limite_lluvia_mm") as [lim|] eqn:El; simpl; [|auto].
  destruct (ge_r (get dia "lluvia" (VInt 0)) lim) as [[|]|e] eqn:Eg; simpl;
    [|auto|auto].
  destruct fv as [| | | |f]; simpl; try (split; [reflexivity | left; reflexivity]).
  destruct (dia !! "clima") as [d|] eqn:Ec; simpl; [|auto].
  unfold enviar_alerta_pronostico, bind, formatea_1f.
  destruct (get dia "lluvia" (VInt 0)) as [|z|q|s|g] eqn:Ell; simpl; auto.
  all: split; [reflexivity|]; right; eexists; split; [reflexivity|];
    exists f, d, lim; rewrite Ell; auto.
Qed.

Lemma for_each_traza self l w :
  bd (for_each l (analiza_dia self) w).1 = bd w
  /\ exists evs,
       traza (for_each l (analiza_dia self) w).1 = traza w ++ evs
       /\ Forall (fun ev => exists dia, In dia l /\ aviso_de self dia ev) evs.
Proof.
  revert w. induction l as [|dia l IH]; intros w; simpl.
  - split; [reflexivity|]. exists []. rewrite app_nil_r. auto.
  - unfold bind.
    destruct (analiza_dia_casos self dia w) as (Hb & Ht).
    destruct (analiza_dia self dia w) as [w1 [[]|e]]; simpl in *.
    + destruct (IH w1) as (Hb1 & evs & Ht1 & Hf).
      split; [congruence|].
      assert (Hf' : Forall (fun ev => exists dia0, (dia = dia0 \/ In dia0 l)
                                                   /\ aviso_de self dia0 ev) evs).
      { eapply Forall_impl; [exact Hf|]. intros ev (d0 & Hin & Ha). eauto. }
      destruct Ht as [Ht|(ev & Ht & Ha)].
      * exists evs. rewrite Ht1, Ht. auto.
      * exists (ev :: evs). rewrite Ht1, Ht, <- app_assoc. split; [reflexivity|].
        constructor; eauto.
    + split; [exact Hb|].
      destruct Ht as [Ht|(ev & Ht & Ha)].
      * exists []. rewrite app_nil_r. auto.
      * exists [ev]. split; [exact Ht|]. constructor; eauto.
Qed.

Lemma analizar_pronostico_traza self pron w :
  (analizar_pronostico self pron w).2 = Vuelve tt
  /\ bd (analizar_pronostico self pron w).1 = bd w
  /\ Forall (fun ev => exists dia, In dia (take 2 pron) /\ aviso_de self dia ev)
       (nuevos w (analizar_pronostico self pron w).1).
Proof.
  unfold analizar_pronostico, bind, try_except, log. simpl.
  set (w0 := con_registro _ w).
  destruct (for_each_traza self (take 2 pron) w0) as (Hb & evs & Ht & Hf).
  destruct (for_each (take 2 pron) (analiza_dia self) w0) as [w1 [[]|e]];
    simpl in *.
  - split; [reflexivity|]. split; [exact Hb|].
    rewrite (nuevos_app w w1 evs Ht). exact Hf.
  - split; [reflexivity|]. split; [exact Hb|].
    rewrite (nuevos_app w _ evs) by exact Ht. exact Hf.
Qed.

Lemma In_take_2 {A} (x : A) (l : list A) :
  In x (take 2 l) <-> exists i, (i < 2)%nat /\ l !! i = Some x.
Proof.
  rewrite <- list_elem_of_In, list_elem_of_lookup. split.
  - intros [i Hi]. apply lookup_take_Some in Hi as [Hi Hlt]. eauto.
  - intros (i & Hlt & Hi). exists i. apply lookup_take_Some. auto.
Qed.

(** C10. [analizar_pronostico] returns on a forecast of any length and any
    content; every advisory it sends is that of an entry present among the
    first two; and when the rain limit is a positive number, every advisory
    is that of an entry that has a rain value: an entry without one counts
    for 0 mm and sends nothing. *)
Theorem analizar_pronostico_total self pron w :
  (analizar_pronostico self pron w).2 = Vuelve tt
  /\ (forall ev, In ev (nuevos w (analizar_pronostico self pron w).1) ->
      exists i dia, (i < 2)%nat /\ pron !! i = Some dia /\ aviso_de self dia ev)
  /\ (pron = [] -> nuevos w (analizar_pronostico self pron w).1 = [])
  /\ (forall lim,
        umbrales self !! "limite_lluvia_mm" = Some lim ->
        is_num lim = true -> (0 < to_Q lim)%Q ->
        forall ev, In ev (nuevos w (analizar_pronostico self pron w).1) ->
        exists i dia f ll d,
          (i < 2)%nat /\ pron !! i = Some dia
          /\ dia !! "lluvia" = Some ll
          /\ ev = EvEnviarAlertaPronostico f ll d).
Proof.
  destruct (analizar_pronostico_traza self pron w) as (Hr & _ & Hf).
  rewrite Forall_forall in Hf.
  assert (Horigen : forall ev,
            In ev (nuevos w (analizar_pronostico self pron w).1) ->
            exists i dia, (i < 2)%nat /\ pron !! i = Some dia
                          /\ aviso_de self dia ev).
  { intros ev Hin. apply list_elem_of_In in Hin.
    destruct (Hf ev Hin) as (dia & Hd & Ha).
    apply In_take_2 in Hd as (i & Hlt & Hi). eauto. }
  split; [exact Hr|]. split; [exact Horigen|]. split.
  - intros ->. destruct (nuevos w _) as [|ev evs]; [reflexivity|].
    destruct (Horigen ev (or_introl eq_refl)) as (i & dia & _ & Hi & _).
    rewrite lookup_nil in Hi. discriminate.
  - intros lim Hlim Hnum Hpos ev Hin.
    destruct (Horigen ev Hin) as (i & dia & Hlt & Hi & Ha).
    destruct Ha as (f & d & lim' & -> & Hfe & Hc & Hlim' & Hge).
    rewrite Hlim in Hlim'. injection Hlim' as <-.
    unfold get in *. destruct (dia !! "lluvia") as [ll|] eqn:Ell; simpl in *.
    + exists i, dia, (VFecha f), ll, d. auto.
    + exfalso. unfold ge_r in Hge. rewrite Hnum in Hge. simpl in Hge.
      injection Hge as Hge. apply Qle_bool_iff in Hge.
      apply (Qlt_not_le _ _ Hpos). exact Hge.
Qed.

Lemma analizar_pronostico_total_witness :
  nuevos mundo_inicial
    (analizar_pronostico sin_modelo
       [<["fecha" := VFecha {| anio := 2024; mes := 5; dia := 2 |}]>
          (<["clima" := VStr "Nubes"]> ∅)]
       mundo_inicial).1 = [].
Proof.
  destruct (analizar_pronostico_total sin_modelo
              [<["fecha" := VFecha {| anio := 2024; mes := 5; dia := 2 |}]>
                 (<["clima" := VStr "Nubes"]> ∅)]
              mundo_inicial) as (_ & _ & _ & H).
  specialize (H (VInt 10) eq_refl eq_refl eq_refl).
  destruct (nuevos _ _) as [|ev evs]; [reflexivity|].
  destruct (H ev (or_introl eq_refl)) as (i & d & f & ll & c & Hlt & Hi & Hl & _).
  destruct i as [|[|i]]; vm_compute in Hi; try discriminate.
  injection Hi as <-. vm_compute in Hl. discriminate.
Defined.

Lemma analiza_dia_valor self d lim w :
  dia_bien_formado d ->
  umbrales self !! "limite_lluvia_mm" = Some lim -> is_num lim = true ->
  (analiza_dia self d w).2 = Vuelve tt
  /\ bd (analiza_dia self d w).1 = bd w
  /\ traza (analiza_dia self d w).1 = traza w ++ aviso_esperado lim d.
Proof.
  intros [[f Hf] [c Hc] Hn] Hlim Hnum.
  assert (Hgf : get d "fecha" VNone = VFecha f)
    by (unfold get; rewrite Hf; reflexivity).
  assert (Hgc : get d "clima" VNone = c)
    by (unfold get; rewrite Hc; reflexivity).
  unfold analiza_dia, bind, aviso_esperado. rewrite Hgf, Hgc.
  rewrite (getitem_some _ _ _ _ Hf), (getitem_some _ _ _ _ Hlim).
  rewrite ge_num by assumption.
  destruct (Qle_bool (to_Q lim) (to_Q (get d "lluvia" (VInt 0)))).
  - unfold tiene_strftime, log, ret. cbv beta iota.
    rewrite (getitem_some _ _ _ _ Hc).
    unfold enviar_alerta_pronostico, bind, formatea_1f, tiene_strftime, emite, ret.
    destruct (get d "lluvia" (VInt 0)); try discriminate; simpl; auto.
  - rewrite app_nil_r. auto.
Qed.

Lemma for_each_valor self lim l w :
  Forall dia_bien_formado l ->
  umbrales self !! "limite_lluvia_mm" = Some lim -> is_num lim = true ->
  (for_each l (analiza_dia self) w).2 = Vuelve tt
  /\ bd (for_each l (analiza_dia self) w).1 = bd w
  /\ traza (for_each l (analiza_dia self) w).1
     = traza w ++ flat_map (aviso_esperado lim) l.
Proof.
  intros Hf Hlim Hnum. revert w.
  induction Hf as [|d l Hd Hl IH]; intros w; simpl.
  - rewrite app_nil_r. auto.
  - unfold bind.
    destruct (analiza_dia_valor self d lim w Hd Hlim Hnum) as (Hr & Hb & Ht).
    destruct (analiza_dia self d w) as [w1 r]. simpl in *. subst r.
    destruct (IH w1) as (Hr1 & Hb1 & Ht1).
    split; [exact Hr1|]. split; [congruence|].
    rewrite Ht1, Ht, <- app_assoc. reflexivity.
Qed.

(** C7. On a forecast whose first two entries have a date, a condition and
    a numeric rain (or none), under a numeric rain limit,
    [analizar_pronostico] sends one advisory, with the date, the rain and the
    condition of the entry, for each of the first two entries whose rain
    is >= the limit, in order, and nothing else: later entries send nothing,
    and the database is not touched. *)
Theorem avisos_de_pronostico self pron lim w :
  Forall dia_bien_formado (take 2 pron) ->
  umbrales self !! "limite_lluvia_mm" = Some lim -> is_num lim = true ->
  nuevos w (analizar_pronostico self pron w).1
  = flat_map (aviso_esperado lim) (take 2 pron)
  /\ bd (analizar_pronostico self pron w).1 = bd w
  /\ (forall ev,
        In ev (nuevos w (analizar_pronostico self pron w).1) <->
        exists i d,
          (i < 2)%nat /\ pron !! i = Some d
          /\ (to_Q lim <= to_Q (get d "lluvia" (VInt 0)))%Q
          /\ ev = EvEnviarAlertaPronostico (get d "fecha" VNone)
                    (get d "lluvia" (VInt 0)) (get d "clima" VNone)).
Proof.
  intros Hf Hlim Hnum.
  assert (Hn : nuevos w (analizar_pronostico self pron w).1
               = flat_map (aviso_esperado lim) (take 2 pron)
               /\ bd (analizar_pronostico self pron w).1 = bd w).
  { unfold analizar_pronostico, bind, try_except, log. simpl.
    set (w0 := con_registro _ w).
    destruct (for_each_valor self lim (take 2 pron) w0 Hf Hlim Hnum)
      as (Hr & Hb & Ht).
    destruct (for_each (take 2 pron) (analiza_dia self) w0) as [w1 r].
    simpl in *. subst r. simpl. split; [|exact Hb].
    apply nuevos_app. exact Ht. }
  destruct Hn as [Hn Hb]. split; [exact Hn|]. split; [exact Hb|].
  intros ev. rewrite Hn, in_flat_map. split.
  - intros (d & Hd & Hev). apply In_take_2 in Hd as (i & Hlt & Hi).
    exists i, d. unfold aviso_esperado in Hev.
    destruct (Qle_bool _ _) eqn:E; [|destruct Hev].
    destruct Hev as [<-|[]]. apply Qle_bool_iff in E. auto.
  - intros (i & d & Hlt & Hi & Hle & ->). exists d. split.
    + apply In_take_2. eauto.
    + unfold aviso_esperado. apply Qle_bool_iff in Hle. rewrite Hle.
      left. reflexivity.
Qed.

(** ** The adaptive trainer *)

Lemma acumula_valor regs X y :
  acumula regs X y
  = (X ++ map rasgos (List.filter fila_valida regs),
     y ++ map etiqueta (List.filter fila_valida regs)).
Proof.
  revert X y. induction regs as [|[[[t h] l] f] regs IH]; intros X y; simpl.
  - rewrite !app_nil_r. reflexivity.
  - rewrite andb_true_r, andb_assoc.
    destruct (is_not_null t && is_not_null h && is_not_null l); simpl.
    + rewrite IH, <- !app_assoc. reflexivity.
    + apply IH.
Qed.

Lemma is_not_null_iff v : is_not_null v = true <-> v <> VNone.
Proof. destruct v; simpl; split; congruence. Qed.

Lemma consulta_entrenamiento_In b r :
  In r (consulta_entrenamiento b) <->
  exists f a h,
    In f (feedback_usuario b) /\ In a (alertas_emitidas b) /\ In h (historico b)
    /\ f_alerta_id f = a_id a /\ a_clima_id a = h_id h
    /\ h_temperatura h <> VNone
    /\ (f_feedback f = "bien" \/ f_feedback f = "mal")
    /\ r = (h_temperatura h, h_humedad h, h_lluvia h, f_feedback f).
Proof.
  unfold consulta_entrenamiento. rewrite in_flat_map. split.
  - intros (f & Hf & H). apply in_flat_map in H as (a & Ha & H).
    apply in_flat_map in H as (h & Hh & H).
    apply list_elem_of_In, list_elem_of_filter in Ha as [Ea Ha].
    apply list_elem_of_In, list_elem_of_filter in Hh as [Eh Hh].
    apply list_elem_of_In in Ha, Hh.
    destruct (is_not_null (h_temperatura h)) eqn:En; simpl in H; [|destruct H].
    destruct (String.eqb (f_feedback f) "bien" || String.eqb (f_feedback f) "mal")
      eqn:Eb; simpl in H; [|destruct H].
    destruct H as [<-|[]].
    exists f, a, h. apply is_not_null_iff in En.
    apply orb_true_iff in Eb. rewrite !String.eqb_eq in Eb. auto 10.
  - intros (f & a & h & Hf & Ha & Hh & Ea & Eh & En & Eb & ->).
    exists f. split; [exact Hf|]. apply in_flat_map. exists a. split.
    { apply list_elem_of_In, list_elem_of_filter. split; [exact Ea|].
      apply list_elem_of_In. exact Ha. }
    apply in_flat_map. exists h. split.
    { apply list_elem_of_In, list_elem_of_filter. split; [exact Eh|].
      apply list_elem_of_In. exact Hh. }
    apply is_not_null_iff in En. rewrite En.
    rewrite <- !String.eqb_eq, <- orb_true_iff in Eb. rewrite Eb.
    left. reflexivity.
Qed.

(** What the loading step returns and leaves, by the fate of the query. *)
Lemma cargar_datos_valor w :
  (_cargar_datos_entrenamiento w).2
  = Vuelve
      (match fallo_en (fallos_bd (bd w)) 0 with
       | Some _ => None
       | None =>
           match consulta_entrenamiento (bd w) with
           | [] => None
           | _ => Some (map rasgos (filas_validas (bd w)),
                        map etiqueta (filas_validas (bd w)))
           end
       end)
  /\ disco (_cargar_datos_entrenamiento w).1 = disco w
  /\ historico (bd (_cargar_datos_entrenamiento w).1) = historico (bd w)
  /\ alertas_emitidas (bd (_cargar_datos_entrenamiento w).1)
     = alertas_emitidas (bd w)
  /\ feedback_usuario (bd (_cargar_datos_entrenamiento w).1)
     = feedback_usuario (bd w)
  /\ (exists ok, traza (_cargar_datos_entrenamiento w).1 = traza w ++ [EvSelect ok])
  /\ (exists mas, registro (_cargar_datos_entrenamiento w).1 = registro w ++ mas).
Proof.
  unfold _cargar_datos_entrenamiento, execute_select_query, try_except, bind,
    siguiente_fallo, fallo_en, filas_validas.
  destruct w as [b d r tr]. destruct b as [hs sh als sa fbs sf fs].
  cbn [bd fallos_bd disco traza registro].
  destruct fs as [|[e|] fs]; cbn [lookup list_lookup].
  - cbv beta iota. unfold ret, emite, log. cbn [fst snd con_bd con_traza bd traza].
    change (consulta_entrenamiento _) with
      (consulta_entrenamiento
         {| historico := hs; sec_historico := sh; alertas_emitidas := als;
            sec_alertas := sa; feedback_usuario := fbs; sec_feedback := sf;
            fallos_bd := [] |}).
    destruct (consulta_entrenamiento _) as [|r0 regs] eqn:E.
    + simpl. repeat split; eauto. exists []. rewrite app_nil_r. reflexivity.
    + rewrite (acumula_valor (r0 :: regs) [] []). simpl.
      repeat split; eauto.
  - simpl. repeat split; eauto.
  - cbv beta iota. unfold ret, emite, log. cbn [fst snd con_bd con_traza bd traza].
    change (consulta_entrenamiento _) with
      (consulta_entrenamiento
         {| historico := hs; sec_historico := sh; alertas_emitidas := als;
            sec_alertas := sa; feedback_usuario := fbs; sec_feedback := sf;
            fallos_bd := None :: fs |}).
    destruct (consulta_entrenamiento _) as [|r0 regs] eqn:E.
    + simpl. repeat split; eauto. exists []. rewrite app_nil_r. reflexivity.
    + rewrite (acumula_valor (r0 :: regs) [] []). simpl.
      repeat split; eauto.
Qed.

Lemma combine_map {A B C} (f : A -> B) (g : A -> C) (l : list A) :
  combine (map f l) (map g l) = map (fun r => (f r, g r)) l.
Proof. induction l as [|a l IH]; simpl; [reflexivity | rewrite IH; reflexivity]. Qed.

(** C6. Every training row that the loading step produces comes from a
    feedback joined to its alert and to the reading of that alert, with a
    feedback of ["bien"] or ["mal"] and three features that are not null:
    its features are those of the reading, and its label is 1 exactly for
    ["mal"] and 0 exactly for ["bien"].  Conversely every such joined record
    gives a training row, so that a record with a null feature or another
    feedback gives none. *)
Theorem filas_de_entrenamiento w X y :
  (_cargar_datos_entrenamiento w).2 = Vuelve (Some (X, y)) ->
  length X = length y
  /\ forall x lbl,
       In (x, lbl) (combine X y) <->
       exists f a h,
         In f (feedback_usuario (bd w)) /\ In a (alertas_emitidas (bd w))
         /\ In h (historico (bd w))
         /\ f_alerta_id f = a_id a /\ a_clima_id a = h_id h
         /\ (f_feedback f = "bien" \/ f_feedback f = "mal")
         /\ h_temperatura h <> VNone /\ h_humedad h <> VNone
         /\ h_lluvia h <> VNone
         /\ x = [h_temperatura h; h_humedad h; h_lluvia h]
         /\ (lbl = 1 <-> f_feedback f = "mal")
         /\ (lbl = 0 <-> f_feedback f = "bien").
Proof.
  intros H. destruct (cargar_datos_valor w) as (Hv & _).
  rewrite Hv in H. injection H as H.
  destruct (fallo_en (fallos_bd (bd w)) 0); [discriminate|].
  destruct (consulta_entrenamiento (bd w)) eqn:Ec; [discriminate|].
  injection H as <- <-. clear Ec.
  split; [rewrite !length_map; reflexivity|].
  intros x lbl. rewrite combine_map, in_map_iff. unfold filas_validas. split.
  - intros (r & Hr & Hin). apply filter_In in Hin as [Hin Hval].
    apply consulta_entrenamiento_In in Hin
      as (f & a & h & Hf & Ha & Hh & Ea & Eh & Et & Eb & ->).
    simpl in Hr, Hval. injection Hr as <- <-.
    apply andb_true_iff in Hval as [Hval Hl].
    apply andb_true_iff in Hval as [_ Hu].
    apply is_not_null_iff in Hl, Hu.
    exists f, a, h. repeat (split; [assumption|]).
    split; [reflexivity|].
    destruct Eb as [Eb|Eb]; rewrite Eb; simpl; split; split;
      intros; congruence.
  - intros (f & a & h & Hf & Ha & Hh & Ea & Eh & Eb & Et & Eu & El & -> & H1 & H0).
    exists (h_temperatura h, h_humedad h, h_lluvia h, f_feedback f).
    split.
    + simpl. f_equal.
      destruct Eb as [Eb|Eb]; rewrite Eb; simpl; symmetry; tauto.
    + apply filter_In. split.
      * apply consulta_entrenamiento_In. exists f, a, h. auto 10.
      * simpl. apply is_not_null_iff in Et, Eu, El. rewrite Et, Eu, El.
        reflexivity.
Qed.

Lemma cargar_modelo_disco w1 w2 :
  disco w1 = disco w2 -> (cargar_modelo w1).2 = (cargar_modelo w2).2.
Proof.
  intros H. unfold cargar_modelo. rewrite H.
  destruct (modelo_file (disco w2)); reflexivity.
Qed.

Lemma carga_predictor_disco w1 w2 :
  disco w1 = disco w2 -> (carga_predictor w1).2 = (carga_predictor w2).2.
Proof.
  intros H. unfold carga_predictor, cargar_modelo, bind. rewrite H.
  destruct (modelo_file (disco w2)); reflexivity.
Qed.

(** C5. When the query fails, returns nothing or leaves fewer than 20 valid
    rows, [entrenar_y_guardar] returns after the loading step with a warning
    as its only further act: it calls neither the split, the fit nor the
    dump, the model file stays as it was, and a predictor created afterwards
    loads what it would have loaded before. *)
Theorem sin_datos_suficientes sk w :
  (fallo_en (fallos_bd (bd w)) 0 = None ->
   (length (filas_validas (bd w)) < 20)%nat) ->
  (entrenar_y_guardar sk w).2 = Vuelve tt
  /\ disco (entrenar_y_guardar sk w).1 = disco w
  /\ (exists ok, nuevos w (entrenar_y_guardar sk w).1 = [EvSelect ok])
  /\ (exists n,
        registro (entrenar_y_guardar sk w).1
        = registro (_cargar_datos_entrenamiento w).1
            ++ [(WARNING, aviso_pocos_datos n)])
  /\ (cargar_modelo (entrenar_y_guardar sk w).1).2 = (cargar_modelo w).2
  /\ (carga_predictor (entrenar_y_guardar sk w).1).2 = (carga_predictor w).2.
Proof.
  intros Hpocos.
  destruct (cargar_datos_valor w) as (Hv & Hd & _ & _ & _ & (ok & Ht) & _).
  assert (Hfin :
    (entrenar_y_guardar sk w).2 = Vuelve tt
    /\ disco (entrenar_y_guardar sk w).1 = disco w
    /\ traza (entrenar_y_guardar sk w).1 = traza w ++ [EvSelect ok]
    /\ exists n,
         registro (entrenar_y_guardar sk w).1
         = registro (_cargar_datos_entrenamiento w).1
             ++ [(WARNING, aviso_pocos_datos n)]).
  { unfold entrenar_y_guardar, bind.
    destruct (_cargar_datos_entrenamiento w) as [w1 r]. simpl in *. subst r.
    destruct (fallo_en (fallos_bd (bd w)) 0).
    { simpl. repeat split; eauto. exists "0". reflexivity. }
    specialize (Hpocos eq_refl).
    destruct (consulta_entrenamiento (bd w)).
    { simpl. repeat split; eauto. exists "0". reflexivity. }
    rewrite length_map.
    apply Nat.ltb_lt in Hpocos. rewrite Hpocos. simpl.
    repeat split; eauto. }
  destruct Hfin as (Hr & Hdisco & Htr & Hlog).
  split; [exact Hr|]. split; [exact Hdisco|].
  split; [exists ok; apply nuevos_app; exact Htr|].
  split; [exact Hlog|].
  split; [apply cargar_modelo_disco | apply carga_predictor_disco]; exact Hdisco.
Qed.




Lemma sin_datos_suficientes_witness :
  disco (entrenar_y_guardar sklearn_ejemplo (mundo_con_feedback 19 [])).1
  = disco (mundo_con_feedback 19 [])
  /\ exists ok,
       nuevos (mundo_con_feedback 19 [])
         (entrenar_y_guardar sklearn_ejemplo (mundo_con_feedback 19 [])).1
       = [EvSelect ok].
Proof.
  destruct (sin_datos_suficientes sklearn_ejemplo (mundo_con_feedback 19 []))
    as (_ & Hd & Hn & _).
  - intros _. vm_compute. lia.
  - split; [exact Hd | exact Hn].
Defined.

Lemma filas_de_entrenamiento_witness :
  length [[VFloat (385 # 10); VInt 50; VFloat 0];
          [VFloat (385 # 10); VInt 50; VFloat 0]]
  = length [0; 1].
Proof.
  apply (filas_de_entrenamiento (mundo_con_feedback 2 [])
           [[VFloat (385 # 10); VInt 50; VFloat 0];
            [VFloat (385 # 10); VInt 50; VFloat 0]]
           [0; 1]).
  vm_compute. reflexivity.
Defined.

Lemma avisos_de_pronostico_witness :
  nuevos mundo_inicial
    (analizar_pronostico sin_modelo pronostico_ejemplo mundo_inicial).1
  = [EvEnviarAlertaPronostico
       (VFecha {| anio := 2024; mes := 5; dia := 2 |})
       (VFloat (125 # 10)) (VStr "Lluvia moderada")].
Proof.
  destruct (avisos_de_pronostico sin_modelo pronostico_ejemplo (VInt 10)
              mundo_inicial) as (H & _).
  - repeat constructor; try (eexists; vm_compute; reflexivity).
  - vm_compute. reflexivity.
  - reflexivity.
  - rewrite H. vm_compute. reflexivity.
Defined.

(** ** The scenarios of the specification *)

Example escenario_umbral :
  tipos_registrados
    (analizar sin_modelo (lectura (VInt 38) (VInt 50) (VInt 0)) mundo_inicial).1
  = ["riesgo_umbral"].
Proof. vm_compute. reflexivity. Qed.

Example escenario_modelo :
  tipos_registrados
    (analizar (con_modelo (9 # 10)) (lectura (VInt 20) (VInt 40) (VInt 0))
       mundo_inicial).1
  = ["riesgo_ia"].
Proof. vm_compute. reflexivity. Qed.

Example escenario_ambos :
  tipos_registrados
    (analizar (con_modelo (9 # 10)) (lectura (VInt 38) (VInt 40) (VInt 0))
       mundo_inicial).1
  = ["riesgo_umbral"].
Proof. vm_compute. reflexivity. Qed.

Example escenario_normal :
  let w := (analizar sin_modelo (lectura (VInt 20) (VInt 40) (VInt 0))
              mundo_inicial).1 in
  traza w = [] /\ bd w = bd mundo_inicial.
Proof. vm_compute. split; reflexivity. Qed.

Example limite_inclusivo_temperatura :
  tipos_registrados
    (analizar sin_modelo (lectura (VInt 35) (VInt 40) (VInt 0)) mundo_inicial).1
  = ["riesgo_umbral"].
Proof. vm_compute. reflexivity. Qed.

Example limite_inclusivo_probabilidad :
  tipos_registrados
    (analizar (con_modelo (3 # 4)) (lectura (VInt 20) (VInt 40) (VInt 0))
       mundo_inicial).1
  = ["riesgo_ia"].
Proof. vm_compute. reflexivity. Qed.

Example modelo_bajo_el_umbral :
  traza (analizar (con_modelo (74 # 100)) (lectura (VInt 20) (VInt 40) (VInt 0))
           mundo_inicial).1
  = [].
Proof. vm_compute. reflexivity. Qed.

(** A reading without humidity whose temperature reaches the maximum: the
    rules fire before humidity is looked at, and the message cannot be
    built. *)
Example lectura_sin_humedad :
  traza (analizar sin_modelo
           (delete "humedad" (lectura (VInt 38) (VInt 50) (VInt 0)))
           mundo_inicial).1
  = [EvSendError "analizador_hibrido" "'humedad'"].
Proof. vm_compute. reflexivity. Qed.

(** A first entry without date stops the scan: the second entry, whose rain
    is over the limit, sends nothing. *)
Example pronostico_interrumpido :
  traza (analizar_pronostico sin_modelo
           [delete "fecha" (dia_ejemplo 2 (VInt 3) "Nubes");
            dia_ejemplo 3 (VInt 50) "Lluvia intensa"]
           mundo_inicial).1
  = [].
Proof. vm_compute. reflexivity. Qed.

(** ** What [analizar] writes *)

Lemma emite_alerta_bd datos ts t h l c ru ria p msg w :
  lectura_completa datos ts t h l c ->
  (forall w0, _construir_mensaje_alerta datos ru ria p w0 = (w0, Vuelve msg)) ->
  bd_tras_alerta (fila_de_lectura datos ts t h l c w)
    (fila_de_alerta (tipo_de ru ria) msg w) (bd w)
    (bd (emite_alerta datos ru ria p w).1).
Proof.
  intros [] Hmsg.
  unfold emite_alerta. unfold bind at 1. rewrite Hmsg.
  unfold bind.
  repeat (erewrite getitem_some by eassumption; cbv beta iota).
  rewrite <- tipo_de_riesgo.
  unfold insert_historico_clima, insert_alerta_emitida, enviar_alerta_general,
    _execute_write_query, siguiente_fallo, bd_tras_alerta, fallo_en,
    fila_de_lectura, fila_de_alerta, bind, ret, emite, log.
  destruct w as [b d r tr]. destruct b as [hs sh als sa fbs sf fs]. simpl.
  destruct fs as [|[e|] fs]; simpl; try reflexivity.
  destruct fs as [|[e|] fs]; simpl; reflexivity.
Qed.

(** Every way in which [analizar] can leave the database. *)
Lemma analizar_bd self datos w :
  bd (analizar self datos w).1 = bd w
  \/ exists ts t h l c ru ria msg,
       lectura_completa datos ts t h l c
       /\ bd_tras_alerta (fila_de_lectura datos ts t h l c w)
            (fila_de_alerta (tipo_de ru ria) msg w) (bd w)
            (bd (analizar self datos w).1).
Proof.
  destruct (decision self datos w) as [w1 [[[ru ria] p]|e]] eqn:Hd.
  2: { left. apply (analizar_decision_lanza _ _ _ _ _ Hd). }
  destruct (ru || ria) eqn:Hr.
  2: { left. apply (analizar_sin_alerta _ _ _ _ _ _ _ Hd Hr). }
  destruct (lectura_completa_dec datos) as [(ts & t & h & l & c & Hc)|Hno].
  2: { left. destruct (analizar_alerta_incompleta _ _ _ _ _ _ _ Hd Hr Hno)
         as (e & _ & Hb). exact Hb. }
  right. exists ts, t, h, l, c, ru, ria.
  destruct (construir_mensaje_valor datos ts t h l c ru ria p Hc)
    as (msg & Hmsg & _).
  exists msg. split; [exact Hc|].
  rewrite (analizar_desde_decision _ _ _ _ _ _ _ Hd), Hr.
  destruct (decision_marco _ _ _ _ _ Hd) as (Hb & _ & _).
  pose proof (emite_alerta_bd datos ts t h l c ru ria p msg w1 Hc Hmsg) as H.
  destruct (emite_alerta_efectos datos ts t h l c ru ria p msg w1 Hc Hmsg)
    as (w' & He & _).
  unfold try_except. rewrite He in *. simpl in *.
  unfold fila_de_lectura, fila_de_alerta in *. rewrite Hb in H. exact H.
Qed.

Lemma analizar_disco self datos w : disco (analizar self datos w).1 = disco w.
Proof.
  destruct (decision self datos w) as [w1 [[[ru ria] p]|e]] eqn:Hd.
  2: { unfold analizar, analizar_cuerpo, try_except, bind. rewrite Hd.
       simpl. apply (decision_marco _ _ _ _ _ Hd). }
  rewrite (analizar_desde_decision _ _ _ _ _ _ _ Hd).
  destruct (decision_marco _ _ _ _ _ Hd) as (_ & Hdi & _).
  destruct (ru || ria) eqn:Hr; [|exact Hdi].
  destruct (lectura_completa_dec datos) as [(ts & t & h & l & c & Hc)|Hno].
  - destruct (construir_mensaje_valor datos ts t h l c ru ria p Hc)
      as (msg & Hmsg & _).
    destruct (emite_alerta_efectos datos ts t h l c ru ria p msg w1 Hc Hmsg)
      as (w' & He & Hdw & _).
    unfold try_except. rewrite He. simpl. congruence.
  - destruct (emite_alerta_incompleta datos ru ria p w1 Hno) as [e He].
    unfold try_except. rewrite He. simpl. exact Hdi.
Qed.

(** X2. Whatever its input, [analizar] stores at most one reading and at
    most one alert, and an alert only together with its reading; it adds
    them at the end of their tables, and touches neither the rows already
    there, the feedback table nor the model file. *)
Theorem analizar_solo_agrega self datos w :
  exists nh na,
    historico (bd (analizar self datos w).1) = historico (bd w) ++ nh
    /\ alertas_emitidas (bd (analizar self datos w).1)
       = alertas_emitidas (bd w) ++ na
    /\ (length na <= length nh <= 1)%nat
    /\ feedback_usuario (bd (analizar self datos w).1) = feedback_usuario (bd w)
    /\ disco (analizar self datos w).1 = disco w.
Proof.
  pose proof (analizar_disco self datos w) as Hd.
  destruct (analizar_bd self datos w)
    as [Hb|(ts & t & h & l & c & ru & ria & msg & _ & Hb)].
  - exists [], []. rewrite Hb, !app_nil_r. simpl. repeat split; auto.
  - unfold bd_tras_alerta in Hb.
    destruct (fallo_en (fallos_bd (bd w)) 0);
      [|destruct (fallo_en (fallos_bd (bd w)) 1)]; rewrite Hb; simpl.
    + exists [], []. rewrite !app_nil_r. simpl. repeat split; auto.
    + eexists [_], []. rewrite !app_nil_r. simpl. repeat split; auto.
    + eexists [_], [_]. simpl. repeat split; auto.
Qed.

(** ** Keys and references *)

Lemma integra_con_fallos fs b : bd_integra b -> bd_integra (con_fallos_bd fs b).
Proof. intros []. split; assumption. Qed.

Lemma NoDup_snoc_Z (l : list Z) (x : Z) :
  NoDup l -> (forall y, In y l -> y < x) -> NoDup (l ++ [x]).
Proof.
  intros Hl Hlt. apply NoDup_app. split; [exact Hl|]. split.
  - intros y Hy Hx. apply list_elem_of_In in Hy.
    apply list_elem_of_singleton in Hx. subst y.
    specialize (Hlt x Hy). lia.
  - apply NoDup_singleton.
Qed.

Lemma integra_agrega_historico ts t h l c v b :
  bd_integra b ->
  bd_integra
    (agrega_historico
       {| h_id := Z.of_nat (S (sec_historico b)); h_timestamp := ts;
          h_temperatura := t; h_humedad := h; h_lluvia := l; h_clima := c;
          h_viento_kmh := v |} b).
Proof.
  intros [Hid Hnd Haid Hand Href]. split; simpl.
  - intros f Hf. apply in_app_iff in Hf as [Hf|[<-|[]]].
    + specialize (Hid f Hf). lia.
    + simpl. lia.
  - rewrite map_app. simpl. apply NoDup_snoc_Z; [exact Hnd|].
    intros y Hy. apply in_map_iff in Hy as (f & <- & Hf).
    specialize (Hid f Hf). lia.
  - exact Haid.
  - exact Hand.
  - intros a Ha. destruct (Href a Ha) as (f & Hf & E).
    exists f. split; [apply in_app_iff; left; exact Hf | exact E].
Qed.

Lemma integra_agrega_alerta tipo msg cid b :
  bd_integra b ->
  (exists f, In f (historico b) /\ h_id f = cid) ->
  bd_integra
    (agrega_alerta
       {| a_id := Z.of_nat (S (sec_alertas b)); a_tipo_alerta := tipo;
          a_descripcion := msg; a_clima_id := cid |} b).
Proof.
  intros [Hid Hnd Haid Hand Href] Hcid. split; simpl.
  - exact Hid.
  - exact Hnd.
  - intros a Ha. apply in_app_iff in Ha as [Ha|[<-|[]]].
    + specialize (Haid a Ha). lia.
    + simpl. lia.
  - rewrite map_app. simpl. apply NoDup_snoc_Z; [exact Hand|].
    intros y Hy. apply in_map_iff in Hy as (a & <- & Ha).
    specialize (Haid a Ha). lia.
  - intros a Ha. apply in_app_iff in Ha as [Ha|[<-|[]]].
    + apply Href, Ha.
    + exact Hcid.
Qed.

Lemma integra_agrega_feedback f b :
  bd_integra b -> bd_integra (agrega_feedback f b).
Proof. intros []. split; assumption. Qed.

Lemma insert_feedback_bd alerta_id feedback w :
  bd (insert_feedback alerta_id feedback w).1
  = match fallo_en (fallos_bd (bd w)) 0 with
    | Some _ => con_fallos_bd (drop 1 (fallos_bd (bd w))) (bd w)
    | None =>
        con_fallos_bd (drop 1 (fallos_bd (bd w)))
          (agrega_feedback
             {| f_id := Z.of_nat (S (sec_feedback (bd w)));
                f_alerta_id := alerta_id; f_feedback := feedback |} (bd w))
    end.
Proof.
  unfold insert_feedback, _execute_write_query, siguiente_fallo, fallo_en,
    bind, ret, emite, log.
  destruct w as [b d r tr]. destruct b as [hs sh als sa fbs sf fs]. simpl.
  destruct fs as [|[e|] fs]; reflexivity.
Qed.

(** X3. [analizar] and [insert_feedback] keep the keys of the database
    sound, whatever their input and whichever statements fail: the ids of
    readings and alerts stay positive and distinct, and an alert is never
    left without the reading it refers to. *)
Theorem escrituras_conservan_integridad self datos alerta_id feedback w :
  bd_integra (bd w) ->
  bd_integra (bd (analizar self datos w).1)
  /\ bd_integra (bd (insert_feedback alerta_id feedback w).1).
Proof.
  intros Hi. split.
  - destruct (analizar_bd self datos w)
      as [Hb|(ts & t & h & l & c & ru & ria & msg & _ & Hb)].
    + rewrite Hb. exact Hi.
    + unfold bd_tras_alerta in Hb.
      destruct (fallo_en (fallos_bd (bd w)) 0);
        [|destruct (fallo_en (fallos_bd (bd w)) 1)]; rewrite Hb;
        apply integra_con_fallos; [exact Hi| |].
      * apply integra_agrega_historico, Hi.
      * apply (integra_agrega_alerta _ _ _
                 (agrega_historico (fila_de_lectura datos ts t h l c w) (bd w))).
        -- apply integra_agrega_historico, Hi.
        -- eexists. split; [apply in_app_iff; right; left; reflexivity|].
           reflexivity.
  - rewrite insert_feedback_bd.
    destruct (fallo_en (fallos_bd (bd w)) 0); apply integra_con_fallos;
      [exact Hi | apply integra_agrega_feedback, Hi].
Qed.

Lemma integra_bd_vacia : bd_integra bd_vacia.
Proof.
  split; simpl; try (intros ? []); constructor.
Qed.

Lemma escrituras_conservan_integridad_witness :
  bd_integra
    (bd (analizar sin_modelo (lectura (VInt 38) (VInt 50) (VInt 0))
           mundo_inicial).1).
Proof.
  apply (escrituras_conservan_integridad sin_modelo
           (lectura (VInt 38) (VInt 50) (VInt 0)) 1 "bien" mundo_inicial).
  split; simpl; try (intros ? []); constructor.
Defined.

(** ** Malformed readings *)




(** X5. A reading whose temperature is [None], as the collector builds it
    when the API gives none, is not evaluated against any bound: under a
    numeric maximum the first comparison raises [TypeError], nothing is
    stored, and the error is reported to the notifier. *)
Theorem temperatura_nula self datos u w :
  datos !! "temperatura" = Some VNone ->
  umbrales self !! "limite_temp_max" = Some u ->
  is_num u = true ->
  bd (analizar self datos w).1 = bd w
  /\ nuevos w (analizar self datos w).1
     = [EvSendError "analizador_hibrido"
          ("'>=' not supported between instances of 'NoneType' and '"
             +:+ type_name u +:+ "'")].
Proof.
  intros Ht Hu Hnum.
  assert (Hd : decision self datos w
               = (w, Lanza {| clase := TypeError;
                              texto := "'>=' not supported between instances of '"
                                         +:+ "NoneType" +:+ "' and '"
                                         +:+ type_name u +:+ "'" |})).
  { unfold decision, evalua_umbrales, py_or, bind.
    rewrite (getitem_some _ _ _ _ Ht), (getitem_some _ _ _ _ Hu).
    unfold ge, lift, ge_r. simpl. destruct u; try discriminate; reflexivity. }
  destruct (analizar_decision_lanza _ _ _ _ _ Hd) as [Hn Hb].
  split; [exact Hb | exact Hn].
Qed.

Lemma temperatura_nula_witness :
  nuevos mundo_inicial
    (analizar sin_modelo (lectura VNone (VInt 50) (VInt 0)) mundo_inicial).1
  = [EvSendError "analizador_hibrido"
       "'>=' not supported between instances of 'NoneType' and 'int'"].
Proof.
  apply (temperatura_nula sin_modelo (lectura VNone (VInt 50) (VInt 0))
           (VInt 35) mundo_inicial); reflexivity.
Defined.




(** ** From an alert to a training row *)



(** ** Bounds of the forecast evaluator *)

Lemma analiza_dia_disco self d w : disco (analiza_dia self d w).1 = disco w.
Proof.
  unfold analiza_dia, bind, getitem, lift, ge.
  destruct (d !! "fecha") as [fv|]; simpl; [|reflexivity].
  destruct (umbrales self !! "limite_lluvia_mm") as [lim|]; simpl; [|reflexivity].
  destruct (ge_r (get d "lluvia" (VInt 0)) lim) as [[|]|e]; simpl;
    [|reflexivity|reflexivity].
  destruct fv; simpl; try reflexivity.
  destruct (d !! "clima"); simpl; [|reflexivity].
  unfold enviar_alerta_pronostico, bind, formatea_1f.
  destruct (get d "lluvia" (VInt 0)); reflexivity.
Qed.

Lemma for_each_cota self l w :
  disco (for_each l (analiza_dia self) w).1 = disco w
  /\ exists evs,
       traza (for_each l (analiza_dia self) w).1 = traza w ++ evs
       /\ (length evs <= length l)%nat.
Proof.
  revert w. induction l as [|d l IH]; intros w; simpl.
  - split; [reflexivity|]. exists []. rewrite app_nil_r. auto.
  - unfold bind.
    pose proof (analiza_dia_disco self d w) as Hd.
    destruct (analiza_dia_casos self d w) as (_ & Ht).
    destruct (analiza_dia self d w) as [w1 [[]|e]]; simpl in *.
    + destruct (IH w1) as (Hd1 & evs & Ht1 & Hlen).
      split; [congruence|].
      destruct Ht as [Ht|(ev & Ht & _)].
      * exists evs. rewrite Ht1, Ht. split; [reflexivity | lia].
      * exists (ev :: evs). rewrite Ht1, Ht, <- app_assoc.
        split; [reflexivity | simpl; lia].
    + split; [exact Hd|].
      destruct Ht as [Ht|(ev & Ht & _)].
      * exists []. rewrite app_nil_r. split; [exact Ht | simpl; lia].
      * exists [ev]. split; [exact Ht | simpl; lia].
Qed.

(** X8. Whatever the forecast, the thresholds and the world,
    [analizar_pronostico] sends at most two advisories, and no more than the
    forecast has entries; it writes nothing to the database and leaves the
    model file alone. *)
Theorem analizar_pronostico_acotado self pron w :
  (length (nuevos w (analizar_pronostico self pron w).1)
   <= Nat.min 2 (length pron))%nat
  /\ bd (analizar_pronostico self pron w).1 = bd w
  /\ disco (analizar_pronostico self pron w).1 = disco w.
Proof.
  destruct (analizar_pronostico_traza self pron w) as (_ & Hb & _).
  split; [|split; [exact Hb|]].
  - unfold analizar_pronostico, bind, try_except, log. simpl.
    set (w0 := con_registro _ w).
    destruct (for_each_cota self (take 2 pron) w0) as (_ & evs & Ht & Hlen).
    rewrite length_take in Hlen.
    destruct (for_each (take 2 pron) (analiza_dia self) w0) as [w1 [[]|e]];
      simpl in *.
    + rewrite (nuevos_app w w1 evs Ht). exact Hlen.
    + rewrite (nuevos_app w _ evs) by exact Ht. exact Hlen.
  - unfold analizar_pronostico, bind, try_except, log. simpl.
    set (w0 := con_registro _ w).
    destruct (for_each_cota self (take 2 pron) w0) as (Hd & _).
    destruct (for_each (take 2 pron) (analiza_dia self) w0) as [w1 [[]|e]];
      simpl in *; exact Hd.
Qed.

(** X9. The scan of the forecast is not isolated entry by entry: when the
    analysis of the first entry raises, the exception is logged as an error,
    no entry after it is looked at, and no advisory is sent, whatever rain
    the second entry announces. *)
Theorem pronostico_se_interrumpe self d resto e w :
  (forall w0, (analiza_dia self d w0).2 = Lanza e) ->
  (analizar_pronostico self (d :: resto) w).2 = Vuelve tt
  /\ nuevos w (analizar_pronostico self (d :: resto) w).1 = []
  /\ last (registro (analizar_pronostico self (d :: resto) w).1)
     = Some (ERROR, "Error analizando el pronóstico: " +:+ str_exc e).
Proof.
  intros Hl. unfold analizar_pronostico, bind, try_except, log. simpl.
  set (w0 := con_registro _ w).
  specialize (Hl w0).
  destruct (analiza_dia_casos self d w0) as (_ & Ht).
  unfold bind.
  destruct (analiza_dia self d w0) as [w1 r] eqn:Ed. simpl in Hl. subst r.
  simpl. split; [reflexivity|]. split.
  - destruct Ht as [Ht|(ev & Ht & Ha)].
    + apply nuevos_nil. simpl. exact Ht.
    + exfalso.
      revert Ed Ht. unfold analiza_dia, bind, getitem, lift, ge.
      destruct (d !! "fecha") as [fv|]; simpl;
        [|intros H; inversion H; subst; intros Ht;
          apply (f_equal length) in Ht; rewrite length_app in Ht; simpl in Ht; lia].
      destruct (umbrales self !! "limite_lluvia_mm") as [lim|]; simpl;
        [|intros H; inversion H; subst; intros Ht;
          apply (f_equal length) in Ht; rewrite length_app in Ht; simpl in Ht; lia].
      destruct (ge_r (get d "lluvia" (VInt 0)) lim) as [[|]|e0]; simpl;
        try (intros H; inversion H; subst; intros Ht;
             apply (f_equal length) in Ht; rewrite length_app in Ht;
             simpl in Ht; lia).
      destruct fv; simpl;
        try (intros H; inversion H; subst; intros Ht;
             apply (f_equal length) in Ht; rewrite length_app in Ht;
             simpl in Ht; lia).
      destruct (d !! "clima"); simpl;
        [|intros H; inversion H; subst; intros Ht;
          apply (f_equal length) in Ht; rewrite length_app in Ht; simpl in Ht; lia].
      unfold enviar_alerta_pronostico, bind, formatea_1f.
      destruct (get d "lluvia" (VInt 0)); simpl;
        intros H; inversion H; subst; intros Ht;
        apply (f_equal length) in Ht; rewrite length_app in Ht; simpl in Ht; lia.
  - rewrite last_snoc. reflexivity.
Qed.

Lemma pronostico_se_interrumpe_witness :
  nuevos mundo_inicial
    (analizar_pronostico sin_modelo
       [delete "fecha" (dia_ejemplo 2 (VInt 3) "Nubes");
        dia_ejemplo 3 (VInt 50) "Lluvia intensa"]
       mundo_inicial).1
  = [].
Proof.
  apply (pronostico_se_interrumpe sin_modelo
           (delete "fecha" (dia_ejemplo 2 (VInt 3) "Nubes"))
           [dia_ejemplo 3 (VInt 50) "Lluvia intensa"]
           {| clase := KeyError; texto := "'fecha'" |} mundo_inicial).
  intros w0. vm_compute. reflexivity.
Defined.

(** ** Retraining: failures and the next load *)

(** X10. Past the gate, an exception raised by the split, the fit, the
    prediction on the held-out rows or the report is not caught by
    [entrenar_y_guardar]: it reaches the caller, nothing is handed to
    [joblib.dump], and the model file stays as it was.  A failure of the
    evaluation alone is enough to keep a fitted model from being saved. *)
Theorem fallo_de_entrenamiento_propaga sk w X y e :
  (_cargar_datos_entrenamiento w).2 = Vuelve (Some (X, y)) ->
  (20 <= length X)%nat ->
  entrena_y_evalua sk X y = Lanza e ->
  (entrenar_y_guardar sk w).2 = Lanza e
  /\ disco (entrenar_y_guardar sk w).1 = disco w
  /\ (forall ok, ~ In (EvDump ok) (nuevos w (entrenar_y_guardar sk w).1)).
Proof.
  intros Hdatos Hlen Hev.
  destruct (cargar_datos_valor w) as (_ & Hd & _ & _ & _ & (ok0 & Ht) & _).
  unfold entrenar_y_guardar, bind.
  destruct (_cargar_datos_entrenamiento w) as [w1 r]. simpl in *. subst r.
  apply Nat.ltb_ge in Hlen. rewrite Hlen.
  unfold entrena_y_evalua in Hev. unfold emite, lift, log, nuevos. simpl.
  destruct (train_test_split sk X y (1 # 4) 42 y)
    as [[[[X_train X_test] y_train] y_test]|e1]; simpl.
  2: { injection Hev as <-. rewrite Ht, <- app_assoc, drop_app_length.
       simpl. split; [reflexivity|]. split; [exact Hd|].
       intros ok H. simpl in H. intuition discriminate. }
  destruct (RandomForestClassifier_fit sk 100 42 "balanced" X_train y_train)
    as [m|e1]; simpl.
  2: { injection Hev as <-. rewrite Ht, <- !app_assoc, drop_app_length.
       simpl. split; [reflexivity|]. split; [exact Hd|].
       intros ok H. simpl in H. intuition discriminate. }
  destruct (predict m X_test) as [y_pred|e1]; simpl.
  2: { injection Hev as <-. rewrite Ht, <- !app_assoc, drop_app_length.
       simpl. split; [reflexivity|]. split; [exact Hd|].
       intros ok H. simpl in H. intuition discriminate. }
  destruct (classification_report sk y_test y_pred _) as [rep|e1]; simpl.
  1: discriminate.
  injection Hev as <-. rewrite Ht, <- !app_assoc, drop_app_length.
  simpl. split; [reflexivity|]. split; [exact Hd|].
  intros ok H. simpl in H. intuition discriminate.
Qed.


Lemma fallo_de_entrenamiento_propaga_witness :
  (entrenar_y_guardar sklearn_sin_reporte (mundo_con_feedback 20 [])).2
  = Lanza {| clase := ValueError; texto := "classification_report" |}.
Proof.
  apply (fallo_de_entrenamiento_propaga sklearn_sin_reporte
           (mundo_con_feedback 20 [])
           (repeat [VFloat (385 # 10); VInt 50; VFloat 0] 20)
           (map (fun i => if Nat.even i then 0 else 1) (seq 0 20))).
  - vm_compute. reflexivity.
  - vm_compute. lia.
  - vm_compute. reflexivity.
Defined.


(** ** The adapter inside the decision *)


Lemma decide_alertar_iff self pr datos ts t h l c tmax tmin hlim llim w :
  lectura_completa datos ts t h l c ->
  is_num t = true -> is_num h = true -> is_num l = true ->
  limites_numericos (umbrales self) tmax tmin hlim llim ->
  is_num (umbral_ia_de (umbrales self)) = true ->
  predictor self = Some pr ->
  decide_alertar self datos w <->
  ((to_Q tmax <= to_Q t \/ to_Q t <= to_Q tmin
    \/ to_Q hlim <= to_Q h \/ to_Q llim <= to_Q l)%Q
   \/ exists m p, modelo pr = Some m /\ prob_modelo m t h l = Some p
                  /\ (to_Q (umbral_ia_de (umbrales self)) <= p)%Q).
Proof.
  intros Hc Ht Hh Hl Hu Hia Hp.
  assert (Hn : lectura_numerica datos t h l)
    by (destruct Hc; split; assumption).
  destruct (decision_valor self pr datos t h l tmax tmin hlim llim w Hn Hu Hia Hp)
    as (w1 & ru & ria & p & Hd & Hru & Hria).
  rewrite (analizar_alerta self datos ts t h l c w w1 ru ria p Hc Hd).
  rewrite orb_true_iff. subst ru.
  rewrite !orb_true_iff, !Qle_bool_iff.
  assert (Hmod : ria = true <->
                 exists m p, modelo pr = Some m /\ prob_modelo m t h l = Some p
                   /\ (to_Q (umbral_ia_de (umbrales self)) <= p)%Q).
  { destruct (modelo pr) as [m|].
    - destruct (prob_modelo m t h l) as [p'|] eqn:E.
      + destruct Hria as [-> ->]. rewrite Qle_bool_iff. split.
        * intros H. exists m, p'. auto.
        * intros (m' & q & Hm' & Hq & Hle). injection Hm' as <-.
          rewrite E in Hq. injection Hq as <-. exact Hle.
      + destruct Hria as [-> _]. split; [discriminate|].
        intros (m' & q & Hm' & Hq & _). injection Hm' as <-.
        rewrite E in Hq. discriminate.
    - destruct Hria as [-> _]. split; [discriminate|].
      intros (m' & q & Hm' & _). discriminate. }
  rewrite Hmod. tauto.
Qed.



(** ** One cycle, from the model file to the decision *)

Lemma ciclo_desde_analizar umbrales datos k v w :
  datos !! k = Some v ->
  exists w1,
    ciclo_analisis umbrales (Some datos) w
    = analizar {| predictor := Some {| modelo := modelo_en_disco w |};
                  umbrales := umbrales |} datos w1
    /\ traza w1 = traza w /\ bd w1 = bd w /\ disco w1 = disco w.
Proof.
  intros Hk.
  assert (Hne : map_to_list datos <> []).
  { intros H. apply map_to_list_empty_iff in H. subst datos.
    rewrite lookup_empty in Hk. discriminate. }
  unfold ciclo_analisis, carga_predictor, cargar_modelo, Predictor_init,
    Analizador_init, modelo_en_disco, bind, log, ret.
  destruct (map_to_list datos) as [|kv kvs]; [congruence|].
  destruct (modelo_file (disco w)); simpl; eexists; split; try reflexivity;
    auto.
Qed.

(** X14. A cycle binds to the model file as it is when the cycle starts.
    It never raises; without a reading, or with an empty one, it calls no
    collaborator; and on a numeric reading it alerts exactly when a rule
    fires or the file holds a model whose probability reaches the bound.
    With a missing or unreadable file the rules alone decide. *)
Theorem ciclo_usa_el_archivo umbrales datos ts t h l c tmax tmin hlim llim w :
  lectura_completa datos ts t h l c ->
  is_num t = true -> is_num h = true -> is_num l = true ->
  limites_numericos umbrales tmax tmin hlim llim ->
  is_num (umbral_ia_de umbrales) = true ->
  let regla :=
    (to_Q tmax <= to_Q t \/ to_Q t <= to_Q tmin
     \/ to_Q hlim <= to_Q h \/ to_Q llim <= to_Q l)%Q in
  let alerta :=
    exists ts' t' h' l' c' v res resto,
      nuevos w (ciclo_analisis umbrales (Some datos) w).1
      = EvInsertHistoricoClima ts' t' h' l' c' v res :: resto in
  (ciclo_analisis umbrales (Some datos) w).2 = Vuelve tt
  /\ (alerta <->
      regla \/ exists m p, modelo_en_disco w = Some m
                           /\ prob_modelo m t h l = Some p
                           /\ (to_Q (umbral_ia_de umbrales) <= p)%Q)
  /\ (modelo_en_disco w = None -> (alerta <-> regla))
  /\ nuevos w (ciclo_analisis umbrales None w).1 = []
  /\ nuevos w (ciclo_analisis umbrales (Some ∅) w).1 = [].
Proof.
  intros Hc Ht Hh Hl Hu Hia regla alerta.
  destruct (ciclo_desde_analizar umbrales datos "timestamp" ts w (lc_timestamp _ _ _ _ _ _ Hc))
    as (w1 & Hciclo & Htr & _).
  set (self := {| predictor := Some {| modelo := modelo_en_disco w |};
                  umbrales := umbrales |}) in *.
  assert (Ha : alerta <-> decide_alertar self datos w1).
  { subst alerta. unfold decide_alertar, nuevos. rewrite Hciclo, Htr.
    reflexivity. }
  pose proof (decide_alertar_iff self {| modelo := modelo_en_disco w |}
                datos ts t h l c tmax tmin hlim llim w1
                Hc Ht Hh Hl Hu Hia eq_refl) as Hiff.
  simpl in Hiff. fold regla in Hiff.
  split; [|split; [|split; [|split]]].
  - rewrite Hciclo. unfold analizar, try_except.
    destruct (analizar_cuerpo self datos w1) as [w2 [[]|e]]; reflexivity.
  - rewrite Ha. exact Hiff.
  - intros Hnone. rewrite Ha, Hiff. rewrite Hnone.
    split; [|tauto]. intros [H|(m & p & Hm & _)]; [exact H | discriminate].
  - apply nuevos_nil.
    unfold ciclo_analisis, carga_predictor, cargar_modelo, Predictor_init,
      Analizador_init, bind, log, ret.
    destruct (modelo_file (disco w)); reflexivity.
  - apply nuevos_nil.
    unfold ciclo_analisis, carga_predictor, cargar_modelo, Predictor_init,
      Analizador_init, bind, log, ret.
    rewrite map_to_list_empty.
    destruct (modelo_file (disco w)); reflexivity.
Qed.

Lemma ciclo_usa_el_archivo_witness :
  (ciclo_analisis umbrales_ejemplo
     (Some (lectura (VInt 38) (VInt 50) (VInt 0))) mundo_inicial).2
  = Vuelve tt.
Proof.
  apply (ciclo_usa_el_archivo umbrales_ejemplo
           (lectura (VInt 38) (VInt 50) (VInt 0))
           (VStr "2024-05-01 12:00:00") (VInt 38) (VInt 50) (VInt 0)
           (VStr "Cielo claro") (VInt 35) (VInt 5) (VInt 90) (VInt 10)
           mundo_inicial).
  - split; vm_compute; reflexivity.
  - reflexivity.
  - reflexivity.
  - reflexivity.
  - split; vm_compute; reflexivity.
  - reflexivity.
Defined.

(** ** The status summary *)

Lemma select_valor {A} (consulta : BD -> list A) (query : string) w :
  (execute_select_query consulta query w).2
  = Vuelve (match fallo_en (fallos_bd (bd w)) 0 with
            | None =>
                Some (consulta (con_fallos_bd (drop 1 (fallos_bd (bd w))) (bd w)))
            | Some _ => None
            end)
  /\ bd (execute_select_query consulta query w).1
     = con_fallos_bd (drop 1 (fallos_bd (bd w))) (bd w)
  /\ disco (execute_select_query consulta query w).1 = disco w.
Proof.
  unfold execute_select_query, siguiente_fallo, fallo_en, bind, emite, log, ret.
  destruct w as [b d r tr]. destruct b as [hs sh als sa fbs sf fs]. simpl.
  destruct fs as [|[e|] fs]; simpl; repeat split; reflexivity.
Qed.

(** X15. [get_status_summary] never raises and writes no row.  Its
    ["total"] is the number of stored readings, or 0 when the first query
    fails; its ["ultimo"] is the timestamp of the reading of largest id, or
    ["N/A"] when there is none or the second query fails. *)
Theorem resumen_de_estado w :
  exists s,
    (get_status_summary w).2 = Vuelve s
    /\ s !! "total"
       = Some (match fallo_en (fallos_bd (bd w)) 0 with
               | None => VInt (Z.of_nat (length (historico (bd w))))
               | Some _ => VInt 0
               end)
    /\ s !! "ultimo"
       = Some (match fallo_en (fallos_bd (bd w)) 1,
                     fila_mas_reciente (historico (bd w)) with
               | None, Some f => h_timestamp f
               | _, _ => VStr "N/A"
               end)
    /\ historico (bd (get_status_summary w).1) = historico (bd w)
    /\ alertas_emitidas (bd (get_status_summary w).1) = alertas_emitidas (bd w)
    /\ feedback_usuario (bd (get_status_summary w).1) = feedback_usuario (bd w)
    /\ disco (get_status_summary w).1 = disco w.
Proof.
  unfold get_status_summary, execute_select_query, siguiente_fallo, fallo_en,
    consulta_total, consulta_ultimo, summary_inicial, try_except, bind, emite,
    log, ret.
  destruct w as [b d r tr]. destruct b as [hs sh als sa fbs sf fs].
  destruct fs as [|[e1|] [|[e2|] fs]]; simpl;
    destruct (fila_mas_reciente hs) as [f|]; simpl;
    eexists; (split; [reflexivity|]);
    repeat split; try reflexivity;
    repeat first [ rewrite lookup_insert_eq | rewrite lookup_insert_ne by done ];
    reflexivity.
Qed.




(** ** The feedback buttons *)

Lemma str_split_sin sep s : sin_caracter sep s = true -> str_split sep s = [s].
Proof.
  induction s as [|a s IH]; simpl; [reflexivity|].
  intros H. apply andb_true_iff in H as [Ha Hs].
  apply negb_true_iff in Ha. rewrite Ha, (IH Hs). reflexivity.
Qed.

Lemma str_split_campo sep d r :
  sin_caracter sep d = true ->
  str_split sep (d +:+ String sep r) = d :: str_split sep r.
Proof.
  induction d as [|a d IH]; simpl.
  - intros _. change ("" +:+ String sep r) with (String sep r). simpl.
    rewrite Ascii.eqb_refl. reflexivity.
  - intros H. apply andb_true_iff in H as [Ha Hd].
    apply negb_true_iff in Ha.
    change (String a d +:+ String sep r) with (String a (d +:+ String sep r)).
    simpl. rewrite Ha, (IH Hd). reflexivity.
Qed.

Lemma sin_dos_puntos_digito x s :
  sin_caracter dos_puntos s = true ->
  sin_caracter dos_puntos (String (pretty_N_char x) s) = true.
Proof.
  intros H. simpl. rewrite H.
  unfold pretty_N_char. repeat case_match; reflexivity.
Qed.

Lemma sin_dos_puntos_pretty_N_go x s :
  sin_caracter dos_puntos s = true ->
  sin_caracter dos_puntos (pretty_N_go x s) = true.
Proof.
  revert s. induction (N.lt_wf_0 x) as [x _ IH]; intros s Hs.
  assert (x = 0 \/ 0 < x)%N as [->|Hx] by lia.
  - rewrite pretty_N_go_0. exact Hs.
  - rewrite pretty_N_go_step by exact Hx. apply IH.
    + apply N.div_lt; [exact Hx | reflexivity].
    + apply sin_dos_puntos_digito, Hs.
Qed.

Lemma sin_dos_puntos_pretty_N (x : N) :
  sin_caracter dos_puntos (pretty x) = true.
Proof.
  unfold pretty, pretty_N. destruct (decide (x = 0%N)); [reflexivity|].
  apply sin_dos_puntos_pretty_N_go. reflexivity.
Qed.

Lemma sin_dos_puntos_pretty_Z (z : Z) :
  sin_caracter dos_puntos (pretty z) = true.
Proof.
  destruct z as [|p|p]; [reflexivity | |].
  - apply (sin_dos_puntos_pretty_N (N.pos p)).
  - change (pretty (Z.neg p)) with ("-" +:+ pretty (N.pos p)).
    change ("-" +:+ pretty (N.pos p))
      with (String (Ascii.ascii_of_nat 45) (pretty (N.pos p))).
    simpl. apply (sin_dos_puntos_pretty_N (N.pos p)).
Qed.

Lemma desempaqueta_callback_data alerta_id opinion :
  sin_caracter dos_puntos opinion = true ->
  desempaqueta_callback (callback_data alerta_id opinion)
  = Vuelve (pretty alerta_id, opinion).
Proof.
  intros Hop. unfold desempaqueta_callback, callback_data.
  change ("feedback:" +:+ pretty alerta_id +:+ ":" +:+ opinion)
    with ("feedback" +:+ String dos_puntos
            (pretty alerta_id +:+ String dos_puntos opinion)).
  rewrite str_split_campo by reflexivity.
  rewrite str_split_campo by apply sin_dos_puntos_pretty_Z.
  rewrite str_split_sin by exact Hop. reflexivity.
Qed.

(** X17. The buttons of an alert carry what the handler reads back.  For
    every alert id, the callback data of each button splits at [':'] into
    exactly three fields, of which the handler gets the decimal text of the
    id and the opinion of the button; and two buttons with the same data
    belong to the same alert and carry the same opinion. *)
Theorem callback_ida_y_vuelta alerta_id :
  desempaqueta_callback (callback_data alerta_id "bien")
  = Vuelve (pretty alerta_id, "bien")
  /\ desempaqueta_callback (callback_data alerta_id "mal")
     = Vuelve (pretty alerta_id, "mal")
  /\ forall otra o o',
       sin_caracter dos_puntos o = true -> sin_caracter dos_puntos o' = true ->
       callback_data alerta_id o = callback_data otra o' ->
       alerta_id = otra /\ o = o'.
Proof.
  split; [apply desempaqueta_callback_data; reflexivity|].
  split; [apply desempaqueta_callback_data; reflexivity|].
  intros otra o o' Ho Ho' H.
  apply (f_equal desempaqueta_callback) in H.
  rewrite !desempaqueta_callback_data in H by assumption.
  injection H as Hid Hop. split; [|exact Hop].
  apply (inj pretty). exact Hid.
Qed.

Lemma callback_ida_y_vuelta_witness :
  7 = 7 /\ "bien" = "bien".
Proof.
  apply (callback_ida_y_vuelta 7); reflexivity.
Defined.

(** X1. The gate is at twenty rows, on the rows that are kept.
    [entrenar_y_guardar] calls the split exactly when the loading step
    returns a data set of at least 20 rows; with 19 it does not, with 20 it
    does. *)
Theorem umbral_de_veinte sk w :
  In EvTrainTestSplit (nuevos w (entrenar_y_guardar sk w).1)
  <-> exists X y,
        (_cargar_datos_entrenamiento w).2 = Vuelve (Some (X, y))
        /\ (20 <= length X)%nat.
Proof.
  destruct (cargar_datos_valor w) as (Hv & _ & _ & _ & _ & (ok & Ht) & _).
  unfold entrenar_y_guardar, bind, nuevos.
  destruct (_cargar_datos_entrenamiento w) as [w1 r]. simpl in *.
  rewrite Hv. clear Hv.
  set (d := match fallo_en (fallos_bd (bd w)) 0 with
            | Some _ => None
            | None => _
            end).
  destruct d as [[X y]|].
  - destruct (length X <? 20)%nat eqn:E.
    + simpl. rewrite Ht, drop_app_length. split.
      * intros [H|[]]. discriminate.
      * intros (X' & y' & H & Hlen). injection H as <- <-.
        apply Nat.ltb_lt in E. lia.
    + apply Nat.ltb_ge in E. split.
      * intros _. exists X, y. auto.
      * intros _. unfold emite, lift, log. simpl.
        destruct (train_test_split sk X y (1 # 4) 42 y)
          as [[[[X_train X_test] y_train] y_test]|e1]; simpl.
        2: { rewrite Ht, <- app_assoc, drop_app_length. right. left.
             reflexivity. }
        destruct (RandomForestClassifier_fit sk 100 42 "balanced" X_train y_train)
          as [m|e1]; simpl.
        2: { rewrite Ht, <- !app_assoc, drop_app_length. right. left.
             reflexivity. }
        destruct (predict m X_test) as [y_pred|e1]; simpl.
        2: { rewrite Ht, <- !app_assoc, drop_app_length. right. left.
             reflexivity. }
        destruct (classification_report sk y_test y_pred _) as [rep|e1]; simpl.
        2: { rewrite Ht, <- !app_assoc, drop_app_length. right. left.
             reflexivity. }
        unfold guarda_modelo, bind, emite, log.
        destruct (fallos_disco (disco _)) as [|[e|] fs]; simpl;
          rewrite Ht, <- !app_assoc, drop_app_length; right; left; reflexivity.
  - simpl. rewrite Ht, drop_app_length. split.
    + intros [H|[]]. discriminate.
    + intros (X' & y' & H & _). discriminate.
Qed.

Lemma umbral_de_veinte_witness :
  In EvTrainTestSplit
     (nuevos (mundo_con_feedback 20 [])
        (entrenar_y_guardar sklearn_ejemplo (mundo_con_feedback 20 [])).1)
  /\ ~ In EvTrainTestSplit
       (nuevos (mundo_con_feedback 19 [])
          (entrenar_y_guardar sklearn_ejemplo (mundo_con_feedback 19 [])).1).
Proof.
  split.
  - apply (umbral_de_veinte sklearn_ejemplo (mundo_con_feedback 20 [])).
    eexists _, _. split; [vm_compute; reflexivity | vm_compute; lia].
  - intros H.
    apply (umbral_de_veinte sklearn_ejemplo (mundo_con_feedback 19 [])) in H.
    destruct H as (X & y & H & Hlen).
    vm_compute in H. injection H as <- <-. vm_compute in Hlen. lia.
Defined.
